(** * VC-LM payment requests: the record store, the CFO and treasury
    actions of the admin view, and the calendar and cashflow views.

    The development follows [database.py] (the SQLite layer) and the
    parts of [app.py] that read and write payment requests.

    Conventions of the embedding:
    - the table [payment_requests] is a finite map from the primary key
      [id] to rows; the [sqlite_sequence] counter of the AUTOINCREMENT
      key is kept next to it;
    - [CURRENT_TIMESTAMP] and [date.today()] are read from the
      environment, so every operation takes the current time (seconds,
      as an integer) or the current date as an argument;
    - [amount] is a REAL column, that is a binary64 number; an amount
      is the rational value of that number, and an addition of amounts
      ([sum], [+=], SUM) is the exact sum rounded to the nearest
      binary64 number, ties to even; infinities and NaN are not
      modelled;
    - text is [string]; a nullable column is an [option]. *)

From Stdlib Require Import ZArith QArith Qpower Qround Qabs String Ascii List
  Permutation Sorted Lia Lqa.
From stdpp Require Import base option countable gmap strings list fin_maps.

Import ListNotations.
Local Open Scope string_scope.
Local Open Scope Z_scope.

(** ** Calendar dates

    [datetime.date] of the Python library: a triple of year, month and
    day, with the proleptic Gregorian ordinal of CPython's [datetime]
    module ([_is_leap], [_days_before_year], [_days_in_month],
    [_days_before_month], [_ymd2ord]). *)

Module Date.

Record t := mk { year : Z; month : Z; day : Z }.

Definition is_leap (y : Z) : bool :=
  (y mod 4 =? 0) && (negb (y mod 100 =? 0) || (y mod 400 =? 0)).

Definition days_before_year (y : Z) : Z :=
  let y1 := y - 1 in
  y1 * 365 + y1 / 4 - y1 / 100 + y1 / 400.

Definition days_in_month (y m : Z) : Z :=
  if m =? 2 then (if is_leap y then 29 else 28)
  else if (m =? 4) || (m =? 6) || (m =? 9) || (m =? 11) then 30
  else 31.

(** Number of days of year [y] before the first day of month [m]. *)
Definition days_before_month (y m : Z) : Z :=
  let base :=
    if m =? 1 then 0 else if m =? 2 then 31 else if m =? 3 then 59
    else if m =? 4 then 90 else if m =? 5 then 120 else if m =? 6 then 151
    else if m =? 7 then 181 else if m =? 8 then 212 else if m =? 9 then 243
    else if m =? 10 then 273 else if m =? 11 then 304 else 334 in
  base + (if (2 <? m) && is_leap y then 1 else 0).

Definition toordinal (d : t) : Z :=
  days_before_year (year d) + days_before_month (year d) (month d) + day d.

(** The dates the [date] constructor accepts (MINYEAR = 1, MAXYEAR = 9999). *)
Definition valid (d : t) : bool :=
  (1 <=? year d) && (year d <=? 9999) &&
  (1 <=? month d) && (month d <=? 12) &&
  (1 <=? day d) && (day d <=? days_in_month (year d) (month d)).

(** Dates are ordered as their ordinals are; [date + timedelta(days=n)]
    is the date whose ordinal is [n] larger, so a comparison with such a
    sum is written on ordinals. *)
Definition leb (a b : t) : bool := toordinal a <=? toordinal b.

Definition eqb (a b : t) : bool :=
  (year a =? year b) && (month a =? month b) && (day a =? day b).

(** [d.replace(day=n)] *)
Definition replace_day (d : t) (n : Z) : t := mk (year d) (month d) n.

(** [d + relativedelta(months=n)] of dateutil, for [0 <= n <= 12]: the
    month is advanced, the year carried, and the day clipped to the
    length of the target month. *)
Definition add_months (d : t) (n : Z) : t :=
  let m0 := month d + n in
  let y := if 12 <? m0 then year d + 1 else if m0 <? 1 then year d - 1 else year d in
  let m := if 12 <? m0 then m0 - 12 else if m0 <? 1 then m0 + 12 else m0 in
  mk y m (Z.min (days_in_month y m) (day d)).

End Date.

#[global] Instance date_eq_dec : EqDecision Date.t.
Proof. solve_decision. Defined.

#[global] Instance date_countable : Countable Date.t.
Proof.
  refine (inj_countable'
            (fun d => (Date.year d, Date.month d, Date.day d))
            (fun p => Date.mk p.1.1 p.1.2 p.2) _).
  intros []; reflexivity.
Defined.

(** ** [datetime.strptime(s, '%Y-%m-%d').date()]

    The format is matched as CPython's [_strptime] does on ASCII text:
    [%Y] is four digits, [%m] is [1[0-2]|0[1-9]|[1-9]], [%d] is
    [3[01]|[12]\d|0[1-9]|[1-9]| [1-9]], the whole string must be
    consumed, and the triple must be a date; anything else raises
    [ValueError], rendered here as [None]. *)

Definition digit (c : ascii) : option Z :=
  let n := Z.of_N (N_of_ascii c) in
  if (48 <=? n) && (n <=? 57) then Some (n - 48) else None.

Definition parse_year (s : string) : option (Z * string) :=
  match s with
  | String a (String b (String c (String d rest))) =>
      match digit a, digit b, digit c, digit d with
      | Some a, Some b, Some c, Some d => Some (a * 1000 + b * 100 + c * 10 + d, rest)
      | _, _, _, _ => None
      end
  | _ => None
  end.

(** [%m] followed by the literal [-]: the two-character alternatives
    are tried first, then the single digit. *)
Definition parse_month_dash (s : string) : option (Z * string) :=
  let two :=
    match s with
    | String a (String b (String "-" rest)) =>
        match digit a, digit b with
        | Some 1, Some b => if b <=? 2 then Some (10 + b, rest) else None
        | Some 0, Some b => if 1 <=? b then Some (b, rest) else None
        | _, _ => None
        end
    | _ => None
    end in
  let one :=
    match s with
    | String a (String "-" rest) =>
        match digit a with
        | Some a => if 1 <=? a then Some (a, rest) else None
        | None => None
        end
    | _ => None
    end in
  match two with Some r => Some r | None => one end.

(** [%d] followed by the end of the string. *)
Definition parse_day_end (s : string) : option Z :=
  match s with
  | String a (String b EmptyString) =>
      match digit a, digit b with
      | Some 3, Some b => if b <=? 1 then Some (30 + b) else None
      | Some 0, Some b => if 1 <=? b then Some b else None
      | Some a, Some b => if (1 <=? a) && (a <=? 2) then Some (a * 10 + b) else None
      | None, Some b => if Ascii.eqb a " " && (1 <=? b) then Some b else None
      | _, None => None
      end
  | String a EmptyString =>
      match digit a with
      | Some a => if 1 <=? a then Some a else None
      | None => None
      end
  | _ => None
  end.

Definition strptime_ymd (s : string) : option Date.t :=
  match parse_year s with
  | Some (y, String "-" rest) =>
      match parse_month_dash rest with
      | Some (m, rest') =>
          match parse_day_end rest' with
          | Some d => let dt := Date.mk y m d in if Date.valid dt then Some dt else None
          | None => None
          end
      | None => None
      end
  | _ => None
  end.

(** ** Rows of [payment_requests]

    One field per column of the CREATE TABLE statement of
    [init_database]. [cfo_approved] is the INTEGER flag (0 or 1). *)

Module PR.

Record t := mk {
  id : Z;
  provider_name : string;
  provider_id : option string;
  purchase_order_number : option string;
  np_type : option string;
  np_number : option string;
  amount : Q;
  payment_type : string;
  payment_method : string;
  payment_term : option string;
  agreed_payment_date : option string;
  mockup_path : option string;
  invoice_path : option string;
  requested_by : string;
  status : string;
  cfo_approved : Z;
  cfo_approved_by : option string;
  cfo_approved_at : option Z;
  admin_notes : option string;
  payment_proof_path : option string;
  created_at : Z;
  updated_at : Z;
  completed_at : option Z
}.

(** Column assignments of the UPDATE statements. *)

Definition set_status (v : string) (r : t) : t :=
  mk (id r) (provider_name r) (provider_id r) (purchase_order_number r)
     (np_type r) (np_number r) (amount r) (payment_type r) (payment_method r)
     (payment_term r) (agreed_payment_date r) (mockup_path r) (invoice_path r)
     (requested_by r) v (cfo_approved r) (cfo_approved_by r)
     (cfo_approved_at r) (admin_notes r) (payment_proof_path r)
     (created_at r) (updated_at r) (completed_at r).

Definition set_cfo_approved (v : Z) (r : t) : t :=
  mk (id r) (provider_name r) (provider_id r) (purchase_order_number r)
     (np_type r) (np_number r) (amount r) (payment_type r) (payment_method r)
     (payment_term r) (agreed_payment_date r) (mockup_path r) (invoice_path r)
     (requested_by r) (status r) v (cfo_approved_by r)
     (cfo_approved_at r) (admin_notes r) (payment_proof_path r)
     (created_at r) (updated_at r) (completed_at r).

Definition set_cfo_approved_by (v : option string) (r : t) : t :=
  mk (id r) (provider_name r) (provider_id r) (purchase_order_number r)
     (np_type r) (np_number r) (amount r) (payment_type r) (payment_method r)
     (payment_term r) (agreed_payment_date r) (mockup_path r) (invoice_path r)
     (requested_by r) (status r) (cfo_approved r) v
     (cfo_approved_at r) (admin_notes r) (payment_proof_path r)
     (created_at r) (updated_at r) (completed_at r).

Definition set_cfo_approved_at (v : option Z) (r : t) : t :=
  mk (id r) (provider_name r) (provider_id r) (purchase_order_number r)
     (np_type r) (np_number r) (amount r) (payment_type r) (payment_method r)
     (payment_term r) (agreed_payment_date r) (mockup_path r) (invoice_path r)
     (requested_by r) (status r) (cfo_approved r) (cfo_approved_by r)
     v (admin_notes r) (payment_proof_path r)
     (created_at r) (updated_at r) (completed_at r).

Definition set_admin_notes (v : option string) (r : t) : t :=
  mk (id r) (provider_name r) (provider_id r) (purchase_order_number r)
     (np_type r) (np_number r) (amount r) (payment_type r) (payment_method r)
     (payment_term r) (agreed_payment_date r) (mockup_path r) (invoice_path r)
     (requested_by r) (status r) (cfo_approved r) (cfo_approved_by r)
     (cfo_approved_at r) v (payment_proof_path r)
     (created_at r) (updated_at r) (completed_at r).

Definition set_payment_proof_path (v : option string) (r : t) : t :=
  mk (id r) (provider_name r) (provider_id r) (purchase_order_number r)
     (np_type r) (np_number r) (amount r) (payment_type r) (payment_method r)
     (payment_term r) (agreed_payment_date r) (mockup_path r) (invoice_path r)
     (requested_by r) (status r) (cfo_approved r) (cfo_approved_by r)
     (cfo_approved_at r) (admin_notes r) v
     (created_at r) (updated_at r) (completed_at r).

Definition set_updated_at (v : Z) (r : t) : t :=
  mk (id r) (provider_name r) (provider_id r) (purchase_order_number r)
     (np_type r) (np_number r) (amount r) (payment_type r) (payment_method r)
     (payment_term r) (agreed_payment_date r) (mockup_path r) (invoice_path r)
     (requested_by r) (status r) (cfo_approved r) (cfo_approved_by r)
     (cfo_approved_at r) (admin_notes r) (payment_proof_path r)
     (created_at r) v (completed_at r).

Definition set_completed_at (v : option Z) (r : t) : t :=
  mk (id r) (provider_name r) (provider_id r) (purchase_order_number r)
     (np_type r) (np_number r) (amount r) (payment_type r) (payment_method r)
     (payment_term r) (agreed_payment_date r) (mockup_path r) (invoice_path r)
     (requested_by r) (status r) (cfo_approved r) (cfo_approved_by r)
     (cfo_approved_at r) (admin_notes r) (payment_proof_path r)
     (created_at r) (updated_at r) v.

(** The columns that no UPDATE of [database.py] assigns. *)
Definition same_request_data (r r' : t) : Prop :=
  id r' = id r /\ provider_name r' = provider_name r /\
  provider_id r' = provider_id r /\
  purchase_order_number r' = purchase_order_number r /\
  np_type r' = np_type r /\ np_number r' = np_number r /\
  amount r' = amount r /\ payment_type r' = payment_type r /\
  payment_method r' = payment_method r /\ payment_term r' = payment_term r /\
  agreed_payment_date r' = agreed_payment_date r /\
  mockup_path r' = mockup_path r /\ invoice_path r' = invoice_path r /\
  requested_by r' = requested_by r /\ created_at r' = created_at r.

End PR.

(** ** The database

    [payment_requests] is keyed by the primary key; [sqlite_sequence] is the
    largest key ever handed out, as the AUTOINCREMENT column records it
    in [sqlite_sequence]. *)

Record database := {
  payment_requests : gmap Z PR.t;
  sqlite_sequence : Z
}.

Definition empty_database : database :=
  {| payment_requests := ∅; sqlite_sequence := 0 |}.

(** [UPDATE payment_requests SET ... WHERE id = ?] followed by
    [cursor.rowcount > 0]: the assignment is applied to the row with the
    key, if there is one, and the result tells whether a row matched. *)
Definition update_where_id (request_id : Z) (assign : PR.t -> PR.t)
    (db : database) : bool * database :=
  match payment_requests db !! request_id with
  | Some r =>
      (true, {| payment_requests := <[request_id := assign r]> (payment_requests db);
                sqlite_sequence := sqlite_sequence db |})
  | None => (false, db)
  end.

(** Python truthiness of an optional string: [None] and the empty
    string are false. *)
Definition truthy (o : option string) : bool :=
  match o with
  | Some s => negb (String.eqb s "")
  | None => false
  end.

(** [x or default] on strings. *)
Definition str_or (o : option string) (default : string) : string :=
  match o with
  | Some s => if String.eqb s "" then default else s
  | None => default
  end.

(** SQL [a || b] and [COALESCE(a, b)] on nullable text. *)
Definition sql_concat (a b : option string) : option string :=
  match a, b with
  | Some x, Some y => Some (x ++ y)%string
  | _, _ => None
  end.

Definition coalesce (a b : option string) : option string :=
  match a with
  | Some _ => a
  | None => b
  end.

(** *** Sorting

    Python's [sorted(l, key=...)] is stable; so is this insertion sort:
    an element is placed before the first one whose key is not smaller.
    The same function renders ORDER BY, whose order among equal keys SQL
    leaves open. *)

Fixpoint insert_by {A : Type} (key : A -> Z) (x : A) (l : list A) : list A :=
  match l with
  | [] => [x]
  | y :: l' => if key x <=? key y then x :: l else y :: insert_by key x l'
  end.

Definition sorted_by {A : Type} (key : A -> Z) (l : list A) : list A :=
  foldr (insert_by key) [] l.

Definition key_le {A : Type} (key : A -> Z) (a b : A) : Prop := key a <= key b.

(** *** [create_payment_request]

    The argument is a Python dict. For each key the model records
    whether it is present and, if so, its value, which may be [None];
    values are taken at the type of the column they are bound to. *)

Inductive entry (A : Type) : Type :=
| Missing : entry A
| Given : option A -> entry A.
Arguments Missing {A}.
Arguments Given {A} _.

Record request_data := {
  d_provider_name : entry string;
  d_provider_id : entry string;
  d_purchase_order_number : entry string;
  d_np_type : entry string;
  d_np_number : entry string;
  d_amount : entry Q;
  d_payment_type : entry string;
  d_payment_method : entry string;
  d_payment_term : entry string;
  d_agreed_payment_date : entry string;
  d_mockup_path : entry string;
  d_invoice_path : entry string;
  d_requested_by : entry string
}.

Inductive exn : Type :=
| KeyError (key : string)
| IntegrityError (column : string).

Inductive result (A : Type) : Type :=
| Ok : A -> result A
| Raise : exn -> result A.
Arguments Ok {A} _.
Arguments Raise {A} _.

#[global] Instance result_ret : MRet result := fun A a => Ok a.

#[global] Instance result_bind : MBind result := fun A B k m =>
  match m with
  | Ok a => k a
  | Raise e => Raise e
  end.

(** [data[key]] *)
Definition subscript {A : Type} (key : string) (e : entry A) : result (option A) :=
  match e with
  | Given v => Ok v
  | Missing => Raise (KeyError key)
  end.

(** [data.get(key)] *)
Definition dict_get {A : Type} (e : entry A) : option A :=
  match e with
  | Given v => v
  | Missing => None
  end.

(** A NOT NULL column refuses NULL. *)
Definition not_null {A : Type} (column : string) (v : option A) : result A :=
  match v with
  | Some a => Ok a
  | None => Raise (IntegrityError column)
  end.

(** The largest key in the table (0 when it is empty). *)
Definition max_rowid (m : gmap Z PR.t) : Z :=
  foldr (fun kv acc => Z.max kv.1 acc) 0 (map_to_list m).

(** The key an AUTOINCREMENT column gives to a new row. *)
Definition next_rowid (db : database) : Z :=
  Z.max (sqlite_sequence db) (max_rowid (payment_requests db)) + 1.

Definition create_payment_request (data : request_data) (now : Z)
    (db : database) : result (Z * database) :=
  (* the parameter tuple, evaluated left to right *)
  provider_name ← subscript "provider_name" (d_provider_name data);
  let provider_id := dict_get (d_provider_id data) in
  let purchase_order_number := dict_get (d_purchase_order_number data) in
  let np_type := dict_get (d_np_type data) in
  let np_number := dict_get (d_np_number data) in
  amount ← subscript "amount" (d_amount data);
  payment_type ← subscript "payment_type" (d_payment_type data);
  payment_method ← subscript "payment_method" (d_payment_method data);
  let payment_term := dict_get (d_payment_term data) in
  let agreed_payment_date := dict_get (d_agreed_payment_date data) in
  let mockup_path := dict_get (d_mockup_path data) in
  let invoice_path := dict_get (d_invoice_path data) in
  requested_by ← subscript "requested_by" (d_requested_by data);
  (* the INSERT, with the NOT NULL constraints and the column defaults *)
  provider_name ← not_null "provider_name" provider_name;
  amount ← not_null "amount" amount;
  payment_type ← not_null "payment_type" payment_type;
  payment_method ← not_null "payment_method" payment_method;
  requested_by ← not_null "requested_by" requested_by;
  let request_id := next_rowid db in
  let row :=
    PR.mk request_id provider_name provider_id purchase_order_number
      np_type np_number amount payment_type payment_method payment_term
      agreed_payment_date mockup_path invoice_path requested_by
      "pendiente" 0 None None None None now now None in
  Ok (request_id,
      {| payment_requests := <[request_id := row]> (payment_requests db);
         sqlite_sequence := request_id |}).

(** *** [get_payment_requests], [get_payment_request] *)

(** The rows in key order, as a scan of the table yields them. *)
Definition table_scan (db : database) : list PR.t :=
  map snd (sorted_by fst (map_to_list (payment_requests db))).

(** ORDER BY created_at DESC *)
Definition order_by_created_at_desc (rows : list PR.t) : list PR.t :=
  sorted_by (fun r => - PR.created_at r) rows.

Definition get_payment_requests (status : option string) (db : database)
    : list PR.t :=
  if truthy status then
    order_by_created_at_desc
      (List.filter (fun r => String.eqb (PR.status r) (default "" status))
         (table_scan db))
  else
    order_by_created_at_desc (table_scan db).

Definition get_payment_request (request_id : Z) (db : database) : option PR.t :=
  payment_requests db !! request_id.

(** *** [update_payment_status], [approve_cfo], [reject_cfo] *)

Definition update_payment_status (request_id : Z) (status : string)
    (admin_notes payment_proof_path : option string) (now : Z)
    (db : database) : bool * database :=
  update_where_id request_id
    (fun r =>
       let r := PR.set_updated_at now (PR.set_status status r) in
       let r := match admin_notes with
                | Some _ => PR.set_admin_notes admin_notes r
                | None => r
                end in
       let r := match payment_proof_path with
                | Some _ => PR.set_payment_proof_path payment_proof_path r
                | None => r
                end in
       if String.eqb status "completado"
       then PR.set_completed_at (Some now) r
       else r)
    db.

Definition approve_cfo (request_id : Z) (approved_by : string) (now : Z)
    (db : database) : bool * database :=
  update_where_id request_id
    (fun r =>
       PR.set_updated_at now
         (PR.set_status "aprobado_cfo"
            (PR.set_cfo_approved_at (Some now)
               (PR.set_cfo_approved_by (Some approved_by)
                  (PR.set_cfo_approved 1 r)))))
    db.

(** The text bound to the second parameter of the UPDATE of [reject_cfo]. *)
Definition rejection_note (reason : option string) : string :=
  ("Rechazado por CFO: " ++ str_or reason "Sin motivo especificado")%string.

Definition reject_cfo (request_id : Z) (approved_by : string)
    (reason : option string) (now : Z) (db : database) : bool * database :=
  update_where_id request_id
    (fun r =>
       PR.set_updated_at now
         (PR.set_admin_notes
            (sql_concat
               (coalesce (sql_concat (PR.admin_notes r) (Some " | ")) (Some ""))
               (Some (rejection_note reason)))
            (PR.set_status "rechazado"
               (PR.set_cfo_approved_at (Some now)
                  (PR.set_cfo_approved_by (Some approved_by)
                     (PR.set_cfo_approved 0 r))))))
    db.

(** ** The admin view ([app.py], "Admin - Gestionar Pagos")

    Each request of the list is rendered from the row [req] read when the
    page was drawn. Which buttons exist depends on [req]'s status; the
    notes box and its save button are always there. A click on a button
    that is not rendered cannot happen ([None]). *)

Inductive admin_button : Type :=
| Aprobar
| Rechazar (reject_reason : string)
| MarcarEnProceso
| MarcarCompletado (proof_path : option string)
| GuardarNotas (admin_notes : string).

Definition admin_click (req : PR.t) (b : admin_button) (now : Z)
    (db : database) : option (bool * database) :=
  let current_status := PR.status req in
  match b with
  | Aprobar =>
      if String.eqb current_status "pendiente"
      then Some (approve_cfo (PR.id req) "CFO" now db)
      else None
  | Rechazar reject_reason =>
      if String.eqb current_status "pendiente"
      then Some (reject_cfo (PR.id req) "CFO" (Some reject_reason) now db)
      else None
  | MarcarEnProceso =>
      if String.eqb current_status "pendiente" then None
      else if String.eqb current_status "aprobado_cfo"
      then Some (update_payment_status (PR.id req) "en_proceso" None None now db)
      else None
  | MarcarCompletado proof_path =>
      if String.eqb current_status "pendiente" then None
      else if String.eqb current_status "aprobado_cfo" then None
      else if String.eqb current_status "en_proceso"
      then Some (update_payment_status (PR.id req) "completado" None proof_path now db)
      else None
  | GuardarNotas admin_notes =>
      Some (update_payment_status (PR.id req) current_status (Some admin_notes)
              None now db)
  end.

(** ** The request form ([app.py], "Producción - Solicitar Pago")

    The values of the widgets when the form is submitted. The two
    attachments are given as the paths under which they were saved. *)

Record form := {
  f_provider_name : string;
  f_provider_id : option string;
  f_oc_type : string;
  f_oc_number : string;
  f_np_type : string;
  f_np_number : string;
  f_amount : Q;
  f_payment_type : string;
  f_payment_method : string;
  f_payment_term : string;
  f_agreed_date : option Date.t;
  f_mockup_path : option string;
  f_invoice_path : option string;
  f_selected_user : string
}.

Inductive form_error : Type :=
| IngreseProveedor     (* "Por favor ingrese el nombre del proveedor." *)
| IngreseNotaDePedido  (* "Por favor ingrese el número de Nota de Pedido." *)
| IngreseMontoValido.  (* "Por favor ingrese un monto válido." *)

Definition lower_ascii (c : ascii) : ascii :=
  let n := N_of_ascii c in
  if (65 <=? n)%N && (n <=? 90)%N then ascii_of_N (n + 32) else c.

(** [str.lower()] on ASCII text *)
Fixpoint lower (s : string) : string :=
  match s with
  | EmptyString => EmptyString
  | String c s' => String (lower_ascii c) (lower s')
  end.

Definition digit_char (n : Z) : ascii := ascii_of_N (Z.to_N (48 + n mod 10)).

(** [date.isoformat()]: year on four digits, month and day on two. *)
Definition isoformat (d : Date.t) : string :=
  let y := Date.year d in
  let m := Date.month d in
  let dd := Date.day d in
  String (digit_char (y / 1000)) (String (digit_char (y / 100))
    (String (digit_char (y / 10)) (String (digit_char y)
    (String "-" (String (digit_char (m / 10)) (String (digit_char m)
    (String "-" (String (digit_char (dd / 10)) (String (digit_char dd)
    EmptyString))))))))).

Definition nonempty (s : string) : option string :=
  if String.eqb s "" then None else Some s.

Definition request_data_of_form (f : form) : request_data :=
  {| d_provider_name := Given (Some (f_provider_name f));
     d_provider_id := Given (if truthy (f_provider_id f) then f_provider_id f else None);
     d_purchase_order_number :=
       Given (if String.eqb (f_oc_number f) "" then None
              else Some (f_oc_type f ++ "-" ++ f_oc_number f)%string);
     d_np_type := Given (Some (f_np_type f));
     d_np_number := Given (Some (f_np_number f));
     d_amount := Given (Some (f_amount f));
     d_payment_type := Given (Some (lower (f_payment_type f)));
     d_payment_method := Given (Some (lower (f_payment_method f)));
     d_payment_term := Given (nonempty (f_payment_term f));
     d_agreed_payment_date := Given (option_map isoformat (f_agreed_date f));
     d_mockup_path := Given (f_mockup_path f);
     d_invoice_path := Given (f_invoice_path f);
     d_requested_by := Given (Some (f_selected_user f)) |}.

(** The body of [if submitted:]. An error message leaves the database
    as it was. *)
Definition submit_payment_request_form (f : form) (now : Z) (db : database)
    : form_error + result (Z * database) :=
  if String.eqb (f_provider_name f) "" then inl IngreseProveedor
  else if String.eqb (f_np_number f) "" then inl IngreseNotaDePedido
  else if Qle_bool (f_amount f) 0 then inl IngreseMontoValido
  else inr (create_payment_request (request_data_of_form f) now db).

(** ** Amounts: binary64 arithmetic

    An amount is a Python [float], stored in a REAL column. The value
    of a finite binary64 number is a rational [m * 2^e] with [m] of at
    most 53 bits and [e >= -1074]. An arithmetic operation returns the
    exact result rounded to the nearest such number, ties to the one
    with the even [m]. Amounts stay far below [2^1024], so the overflow
    to infinity is left out. *)

(** [floor (log2 q)] for a positive [q]. *)
Definition ilog2 (q : Q) : Z :=
  let k := Z.log2 (Qnum q) - Z.log2 (Zpos (Qden q)) in
  if Qle_bool (2 ^ k)%Q q then k else k - 1.

(** The nearest integer, ties to even. *)
Definition round_half_even (q : Q) : Z :=
  let f := Qfloor q in
  match Qcompare (q - inject_Z f)%Q (1 # 2)%Q with
  | Lt => f
  | Gt => f + 1
  | Eq => if Z.even f then f else f + 1
  end.

(** The exponent of the last bit kept for a number of the size of [q]. *)
Definition ulp_exponent (q : Q) : Z := Z.max (ilog2 (Qabs q) - 52) (-1074).

Definition round64 (q : Q) : Q :=
  if Qeq_bool q 0 then 0%Q
  else
    let e := ulp_exponent q in
    Qred (inject_Z (round_half_even (q / 2 ^ e)%Q) * 2 ^ e)%Q.

(** [x + y] on floats. *)
Definition fadd (x y : Q) : Q := round64 (x + y)%Q.

(** ** The calendar and cashflow views ([app.py])

    Both views start from [all_requests = get_payment_requests()]. A row
    extended with its parsed date, [{**p, 'payment_date': payment_date}],
    is a [dated] row. *)

Record dated := { request : PR.t; payment_date : Date.t }.

(** [sum(...)]: the items are added from the left, starting from 0, as
    CPython does up to version 3.11 (later versions carry a correction
    term for floats; what is proved of [sum] below does not depend on
    how the items of one list are added). *)
Definition sum (l : list Q) : Q := fold_left fadd l 0%Q.

Definition amounts (l : list PR.t) : list Q := map PR.amount l.
Definition dated_amounts (l : list dated) : list Q :=
  map (fun p => PR.amount (request p)) l.

(** [r['status'] in ['pendiente', 'en_proceso']] *)
Definition is_active (r : PR.t) : bool :=
  String.eqb (PR.status r) "pendiente" || String.eqb (PR.status r) "en_proceso".

(** [datetime.strptime(p['agreed_payment_date'], '%Y-%m-%d').date()]
    inside [try: ... except: ...]; a missing date raises as well. *)
Definition parse_agreed (p : PR.t) : option Date.t :=
  match PR.agreed_payment_date p with
  | Some s => strptime_ymd s
  | None => None
  end.

(** *** "Calendario de Pagos" *)

Definition scheduled_payments (all_requests : list PR.t) : list PR.t :=
  List.filter (fun r => truthy (PR.agreed_payment_date r) && is_active r)
    all_requests.

Definition month_payments (selected_month selected_year : Z)
    (scheduled : list PR.t) : list dated :=
  flat_map
    (fun p =>
       match parse_agreed p with
       | Some payment_date =>
           if (Date.month payment_date =? selected_month)
              && (Date.year payment_date =? selected_year)
           then [{| request := p; payment_date := payment_date |}]
           else []
       | None => []
       end)
    scheduled.

(** The dict from dates to the list of the payments of that date. *)
Definition payments_by_date (month_payments : list dated)
    : gmap Date.t (list dated) :=
  fold_left
    (fun (acc : gmap Date.t (list dated)) p =>
       let d := payment_date p in
       <[d := (default [] (acc !! d) ++ [p])%list]> acc)
    month_payments ∅.

Definition total_month (month_payments : list dated) : Q :=
  sum (dated_amounts month_payments).

(** [payments_by_date.get(current_date, [])] for a cell of the grid, and
    the two figures shown in a cell that has payments. *)
Definition day_payments (by_date : gmap Date.t (list dated))
    (current_date : Date.t) : list dated :=
  default [] (by_date !! current_date).

Definition total_day (day_payments : list dated) : Q :=
  sum (dated_amounts day_payments).

(** The view as a function of the rows, the month and the year: the
    payments of the month, the grouping, the total of the month. *)
Definition calendar_view (all_requests : list PR.t)
    (selected_month selected_year : Z)
    : list dated * gmap Date.t (list dated) * Q :=
  let mp := month_payments selected_month selected_year
              (scheduled_payments all_requests) in
  (mp, payments_by_date mp, total_month mp).

(** *** "Próximos 7 días" *)

Inductive urgency : Type :=
| high     (* red circle *)
| medium   (* orange circle *)
| low.     (* yellow circle *)

Definition upcoming (today : Date.t) (scheduled : list PR.t) : list dated :=
  flat_map
    (fun p =>
       match parse_agreed p with
       | Some payment_date =>
           if Date.leb today payment_date
              && (Date.toordinal payment_date <=? Date.toordinal today + 7)
           then [{| request := p; payment_date := payment_date |}]
           else []
       | None => []
       end)
    scheduled.

Definition days_until (today : Date.t) (p : dated) : Z :=
  Date.toordinal (payment_date p) - Date.toordinal today.

Definition urgency_of (days_until : Z) : urgency :=
  if days_until <=? 2 then high
  else if days_until <=? 4 then medium
  else low.

Record warning := {
  w_payment : dated;
  w_days_until : Z;
  w_urgency : urgency
}.

Definition upcoming_warnings (today : Date.t) (all_requests : list PR.t)
    : list warning :=
  let upcoming_sorted :=
    sorted_by (fun p => Date.toordinal (payment_date p))
      (upcoming today (scheduled_payments all_requests)) in
  map (fun p =>
         let d := days_until today p in
         {| w_payment := p; w_days_until := d; w_urgency := urgency_of d |})
    upcoming_sorted.

(** *** "Cashflow Proyectado" *)

Definition active_payments (all_requests : list PR.t) : list PR.t :=
  List.filter is_active all_requests.

Definition with_date (active : list PR.t) : list dated :=
  flat_map
    (fun p =>
       if truthy (PR.agreed_payment_date p) then
         match parse_agreed p with
         | Some payment_date => [{| request := p; payment_date := payment_date |}]
         | None => []
         end
       else [])
    active.

Definition without_date (active : list PR.t) : list PR.t :=
  flat_map
    (fun p =>
       if truthy (PR.agreed_payment_date p) then
         match parse_agreed p with
         | Some _ => []
         | None => [p]
         end
       else [p])
    active.

Definition total_pending (active : list PR.t) : Q := sum (amounts active).

(** [range(n)] *)
Definition range (n : nat) : list Z := map Z.of_nat (List.seq 0 n).

Record bucket := { b_index : Z; b_monto : Q; b_pagos : nat }.

(** Weekly projection: [week_start = today + timedelta(weeks=i)],
    [week_end = week_start + timedelta(days=6)], as ordinals. *)
Definition week_start (today : Date.t) (i : Z) : Z := Date.toordinal today + 7 * i.
Definition week_end (today : Date.t) (i : Z) : Z := week_start today i + 6.

Definition week_payments (today : Date.t) (i : Z) (wd : list dated) : list dated :=
  List.filter
    (fun p => (week_start today i <=? Date.toordinal (payment_date p))
              && (Date.toordinal (payment_date p) <=? week_end today i))
    wd.

Definition weeks_data (today : Date.t) (wd : list dated) : list bucket :=
  map (fun i =>
         let wp := week_payments today i wd in
         {| b_index := i; b_monto := sum (dated_amounts wp); b_pagos := length wp |})
    (range 8).

(** Monthly projection: [month_date = today + relativedelta(months=i)],
    [month_start = month_date.replace(day=1)], and [month_end] is the day
    before [month_start + relativedelta(months=1)] (both branches of the
    source compute the same). *)
Definition month_start (today : Date.t) (i : Z) : Date.t :=
  Date.replace_day (Date.add_months today i) 1.

Definition month_end (today : Date.t) (i : Z) : Z :=
  Date.toordinal (Date.add_months (month_start today i) 1) - 1.

Definition month_bucket_payments (today : Date.t) (i : Z) (wd : list dated)
    : list dated :=
  List.filter
    (fun p => Date.leb (month_start today i) (payment_date p)
              && (Date.toordinal (payment_date p) <=? month_end today i))
    wd.

Definition months_data (today : Date.t) (wd : list dated) : list bucket :=
  map (fun i =>
         let mp := month_bucket_payments today i wd in
         {| b_index := i; b_monto := sum (dated_amounts mp); b_pagos := length mp |})
    (range 6).

(** *** "Cashflow Acumulado" *)





(** The rows of the table, in no particular order. *)
Definition all_rows (db : database) : list PR.t :=
  map snd (map_to_list (payment_requests db)).

(** Newest first: [created_at] never increases along the list. *)
Definition newest_first (l : list PR.t) : Prop :=
  StronglySorted (fun a b => PR.created_at b <= PR.created_at a) l.

(** Whether a date lies in a given month of a given year, and whether
    the agreed date of a row parses to such a date. *)
Definition in_month (selected_month selected_year : Z) (d : Date.t) : bool :=
  (Date.month d =? selected_month) && (Date.year d =? selected_year).

Definition falls_in (selected_month selected_year : Z) (r : PR.t) : bool :=
  match parse_agreed r with
  | Some d => in_month selected_month selected_year d
  | None => false
  end.

(** Whether two dates lie in the same month of the same year. *)
Definition same_month (a b : Date.t) : bool :=
  (Date.year a =? Date.year b) && (Date.month a =? Date.month b).


(** ** Sample data

    The request of the first scenario (amount 1500.00, NP 0042, asked by
    Ana), as the only row of the table. *)

Definition sample_request : PR.t :=
  PR.mk 1 "ACME" None None (Some "NPA") (Some "0042") 1500 "total"
    "transferencia" None None None None "Ana" "pendiente" 0 None None None
    None 100 100 None.

Definition sample_db : database :=
  {| payment_requests := {[ 1 := sample_request ]}; sqlite_sequence := 1 |}.

Definition sample_data : request_data :=
  {| d_provider_name := Given (Some "ACME");
     d_provider_id := Given None;
     d_purchase_order_number := Given None;
     d_np_type := Given (Some "NPA");
     d_np_number := Given (Some "0042");
     d_amount := Given (Some 1500%Q);
     d_payment_type := Given (Some "total");
     d_payment_method := Given (Some "transferencia");
     d_payment_term := Given None;
     d_agreed_payment_date := Given None;
     d_mockup_path := Given None;
     d_invoice_path := Given None;
     d_requested_by := Given (Some "Ana") |}.




(** Rows for the views: only the provider, the amount, the agreed date
    and the status vary. *)
Definition request_on (id : Z) (provider_name : string) (amount : Q)
    (agreed_payment_date : option string) (status : string) : PR.t :=
  PR.mk id provider_name None None (Some "NPA") (Some "0042") amount "total"
    "transferencia" None agreed_payment_date None None "Ana" status 0 None
    None None None 100 100 None.

Definition req_100 : PR.t := request_on 1 "ACME" 100 (Some "2024-03-13") "pendiente".
Definition req_200 : PR.t := request_on 2 "Beta" 200 (Some "2024-03-13") "en_proceso".
Definition req_bad_date : PR.t := request_on 3 "Gamma" 50 (Some "13/03/2024") "pendiente".
Definition req_no_date : PR.t := request_on 4 "Delta" 70 None "pendiente".
Definition req_done : PR.t := request_on 5 "Eps" 900 (Some "2024-03-20") "completado".
Definition req_early : PR.t := request_on 6 "Zeta" 1500 (Some "2024-03-01") "pendiente".
Definition req_april : PR.t := request_on 7 "Eta" 40 (Some "2024-04-02") "pendiente".

Definition sample_requests : list PR.t :=
  [req_april; req_200; req_bad_date; req_100; req_no_date; req_done; req_early].

(** The form of the first scenario, filled in by Ana. *)
Definition sample_form : form :=
  {| f_provider_name := "ACME";
     f_provider_id := Some "";
     f_oc_type := "OC";
     f_oc_number := "001234";
     f_np_type := "NPA";
     f_np_number := "0042";
     f_amount := 1500;
     f_payment_type := "Total";
     f_payment_method := "Transferencia";
     f_payment_term := "";
     f_agreed_date := Some (Date.mk 2024 3 13);
     f_mockup_path := None;
     f_invoice_path := None;
     f_selected_user := "Ana" |}.

(** The database after a creation, or the one before when it raised. *)
Definition db_of (res : result (Z * database)) (db : database) : database :=
  match res with
  | Ok (_, db') => db'
  | Raise _ => db
  end.

(** The page is drawn from the stored row, then a button is clicked. *)
Definition admin_view_click (request_id : Z) (b : admin_button) (now : Z)
    (db : database) : option (bool * database) :=
  match get_payment_request request_id db with
  | Some req => admin_click req b now db
  | None => None
  end.

(** The database after a click, or the one before when the button is
    not offered. *)
Definition after_click (request_id : Z) (b : admin_button) (now : Z)
    (db : database) : database :=
  match admin_view_click request_id b now db with
  | Some res => res.2
  | None => db
  end.

(** ** "Mis Solicitudes Recientes" ([app.py], production view)

    [[r for r in all_requests if r['requested_by'] == selected_user][:5]]
    with [all_requests = get_payment_requests()]. *)

Definition requests_of (selected_user : string) (all_requests : list PR.t)
    : list PR.t :=
  List.filter (fun r => String.eqb (PR.requested_by r) selected_user)
    all_requests.

Definition my_requests (selected_user : string) (db : database) : list PR.t :=
  firstn 5 (requests_of selected_user (get_payment_requests None db)).

(** The order of the three markers, from the most urgent one. *)
Definition urgency_rank (u : urgency) : Z :=
  match u with
  | high => 0
  | medium => 1
  | low => 2
  end.

(** Whether a dated payment is due from today up to [days] days ahead. *)
Definition due_within (today : Date.t) (days : Z) (p : dated) : bool :=
  (Date.toordinal today <=? Date.toordinal (payment_date p))
  && (Date.toordinal (payment_date p) <=? Date.toordinal today + days).

(** ** What the interface can reach

    The payment requests change only through the request form and the
    buttons of the admin view, each drawn from the rows as they are
    stored when the page is rendered. *)

Inductive ui_step : database -> database -> Prop :=
| step_submit f now db request_id db' :
    submit_payment_request_form f now db = inr (Ok (request_id, db')) ->
    ui_step db db'
| step_click request_id b now db res :
    admin_view_click request_id b now db = Some res ->
    ui_step db res.2.

Inductive reachable : database -> Prop :=
| reachable_empty : reachable empty_database
| reachable_step db db' : reachable db -> ui_step db db' -> reachable db'.

(** Every row is stored under its own [id]. *)
Definition well_keyed (db : database) : Prop :=
  forall k r, payment_requests db !! k = Some r -> PR.id r = k.

(** The five states of a request, and the state a status text names. *)
Inductive stage : Type :=
| Pendiente | AprobadoCfo | EnProceso | Completado | Rechazado.

Definition stage_of (status : string) : option stage :=
  if String.eqb status "pendiente" then Some Pendiente
  else if String.eqb status "aprobado_cfo" then Some AprobadoCfo
  else if String.eqb status "en_proceso" then Some EnProceso
  else if String.eqb status "completado" then Some Completado
  else if String.eqb status "rechazado" then Some Rechazado
  else None.

(** The CFO columns and the completion columns a state goes with. *)
Definition columns_ok (st : stage) (r : PR.t) : Prop :=
  match st with
  | Pendiente =>
      PR.cfo_approved r = 0 /\ PR.cfo_approved_by r = None /\
      PR.cfo_approved_at r = None /\ PR.completed_at r = None /\
      PR.payment_proof_path r = None
  | AprobadoCfo | EnProceso =>
      PR.cfo_approved r = 1 /\ PR.cfo_approved_by r = Some "CFO" /\
      is_Some (PR.cfo_approved_at r) /\ PR.completed_at r = None /\
      PR.payment_proof_path r = None
  | Completado =>
      PR.cfo_approved r = 1 /\ PR.cfo_approved_by r = Some "CFO" /\
      is_Some (PR.cfo_approved_at r) /\ is_Some (PR.completed_at r)
  | Rechazado =>
      PR.cfo_approved r = 0 /\ PR.cfo_approved_by r = Some "CFO" /\
      is_Some (PR.cfo_approved_at r) /\ PR.completed_at r = None /\
      PR.payment_proof_path r = None /\ is_Some (PR.admin_notes r)
  end.

(** The status is one of the five, the columns agree with it, and the
    row carries what the form checked. *)
Definition lifecycle_ok (r : PR.t) : Prop :=
  (exists st, stage_of (PR.status r) = Some st /\ columns_ok st r) /\
  (0 < PR.amount r)%Q /\
  PR.provider_name r <> "" /\
  (exists np, PR.np_number r = Some np /\ np <> "").

(** The assignment that [update_payment_status] applies to the row it
    finds. *)
Definition status_assignment (status : string)
    (admin_notes payment_proof_path : option string) (now : Z) (r : PR.t)
    : PR.t :=
  let r := PR.set_updated_at now (PR.set_status status r) in
  let r := match admin_notes with
           | Some _ => PR.set_admin_notes admin_notes r
           | None => r
           end in
  let r := match payment_proof_path with
           | Some _ => PR.set_payment_proof_path payment_proof_path r
           | None => r
           end in
  if String.eqb status "completado"
  then PR.set_completed_at (Some now) r
  else r.

(** The status changes the admin view allows. *)
Definition transition (from to : string) : Prop :=
  (from = "pendiente" /\ (to = "aprobado_cfo" \/ to = "rechazado")) \/
  (from = "aprobado_cfo" /\ to = "en_proceso") \/
  (from = "en_proceso" /\ to = "completado") \/
  to = from.

(** ** [get_stats] and the summaries of the pages

    [SELECT status, COUNT, SUM(amount) ... GROUP BY status] has one row
    for each status that occurs in the table, with the number of rows of
    that status and the sum of their amounts, added as floats in the
    order of the scan (recent versions of SQLite carry a correction
    term on top; what is proved of a total below does not depend on
    it). [get_stats] stores the rows in a dict under their status;
    nothing reads the dict in order, so it is a finite map. *)

Module Stat.
Record t := mk { count : nat; total : Q }.
End Stat.

Definition status_groups (rows : list PR.t) : list (string * nat * Q) :=
  map (fun s =>
         let group := List.filter (fun r => String.eqb (PR.status r) s) rows in
         (s, length group, sum (amounts group)))
    (remove_dups (map PR.status rows)).

(** [x or 0] on a number: zero is falsy. *)
Definition num_or_0 (x : Q) : Q := if Qeq_bool x 0 then 0%Q else x.

Definition get_stats (db : database) : gmap string Stat.t :=
  fold_left
    (fun (stats : gmap string Stat.t) (row : string * nat * Q) =>
       <[row.1.1 := Stat.mk row.1.2 (num_or_0 row.2)]> stats)
    (status_groups (table_scan db)) ∅.

(** The sidebar: [stats.get(status, {'count': 0, 'total': 0})]. *)
Definition sidebar_metric (stats : gmap string Stat.t) (status : string) : Stat.t :=
  default (Stat.mk 0 0%Q) (stats !! status).

(** The metrics above the list of the admin view, computed from
    [all_reqs_for_metrics = get_payment_requests()]. *)
Definition with_status (status : string) (rows : list PR.t) : list PR.t :=
  List.filter (fun r => String.eqb (PR.status r) status) rows.

Definition pending_cfo (all_reqs : list PR.t) : nat :=
  length (with_status "pendiente" all_reqs).
Definition approved_cfo (all_reqs : list PR.t) : nat :=
  length (with_status "aprobado_cfo" all_reqs).
Definition in_process_count (all_reqs : list PR.t) : nat :=
  length (with_status "en_proceso" all_reqs).

Definition admin_total_pending (all_reqs : list PR.t) : Q :=
  sum (amounts
         (List.filter
            (fun r => String.eqb (PR.status r) "pendiente"
                      || String.eqb (PR.status r) "aprobado_cfo"
                      || String.eqb (PR.status r) "en_proceso")
            all_reqs)).

(** ** The tables [users] and [providers] ([database.py])

    Both tables have an AUTOINCREMENT key, so a table is the finite map
    of its rows together with its [sqlite_sequence] counter. A SELECT
    without ORDER BY is rendered as a scan in key order. *)

Module User.
Record t := mk { id : Z; name : string; team : string }.
End User.

Module Provider.
Record t := mk {
  id : Z;
  provider_id : option string;
  name : string;
  payment_condition : option string
}.
End Provider.

Record table (A : Type) := { t_rows : gmap Z A; t_sequence : Z }.
Arguments t_rows {A} _.
Arguments t_sequence {A} _.

Definition empty_table {A : Type} : table A :=
  {| t_rows := ∅; t_sequence := 0 |}.

Definition last_rowid {A : Type} (m : gmap Z A) : Z :=
  foldr (fun kv acc => Z.max kv.1 acc) 0 (map_to_list m).

Definition new_rowid {A : Type} (t : table A) : Z :=
  Z.max (t_sequence t) (last_rowid (t_rows t)) + 1.

Definition select_all {A : Type} (t : table A) : list A :=
  map snd (sorted_by fst (map_to_list (t_rows t))).

(** An INSERT that passes the constraints: the row gets the next key. *)
Definition insert_row {A : Type} (make : Z -> A) (t : table A) : table A :=
  let id := new_rowid t in
  {| t_rows := <[id := make id]> (t_rows t); t_sequence := id |}.

(** *** Users *)

(** [INSERT INTO users (name, team)]: [name] is UNIQUE, and a second
    row with a name raises [sqlite3.IntegrityError], here [None]. *)
Definition insert_user (name team : string) (users : table User.t)
    : option (table User.t) :=
  if existsb (fun u => String.eqb (User.name u) name) (select_all users)
  then None
  else Some (insert_row (fun id => User.mk id name team) users).

Definition add_user (name team : string) (users : table User.t)
    : bool * table User.t :=
  match insert_user name team users with
  | Some users' => (true, users')
  | None => (false, users)
  end.

Definition delete_user (user_id : Z) (users : table User.t)
    : bool * table User.t :=
  match t_rows users !! user_id with
  | Some _ =>
      (true, {| t_rows := delete user_id (t_rows users);
                t_sequence := t_sequence users |})
  | None => (false, users)
  end.

Definition get_users (team : option string) (users : table User.t)
    : list User.t :=
  if truthy team then
    List.filter (fun u => String.eqb (User.team u) (default "" team))
      (select_all users)
  else select_all users.

Definition default_users : list (string * string) :=
  [("Usuario Producción 1", "produccion");
   ("Usuario Producción 2", "produccion");
   ("Usuario Admin 1", "admin");
   ("Usuario Admin 2", "admin")].

(** The last step of [init_database]: when the table has no rows, the
    default users are inserted one after the other ([executemany]); an
    IntegrityError would end the call. *)
Definition init_users (users : table User.t) : option (table User.t) :=
  if (length (select_all users) =? 0)%nat then
    fold_left
      (fun (acc : option (table User.t)) (u : string * string) =>
         match acc with
         | Some t => insert_user u.1 u.2 t
         | None => None
         end)
      default_users (Some users)
  else Some users.

(** *** The users tab of the settings page ([app.py], "Configuración")

    The form adds a user when a name was typed; the team comes from a
    select box. Each listed user has a delete button. [None] is a click
    that the page does not offer. *)

Definition teams : list string := ["produccion"; "admin"].

Inductive users_action : Type :=
| AgregarUsuario (new_user_name new_user_team : string)
| EliminarUsuario (user_id : Z).

Definition listed_users (users : table User.t) : list User.t :=
  (get_users (Some "produccion") users ++ get_users (Some "admin") users)%list.

Definition users_click (a : users_action) (users : table User.t)
    : option (table User.t) :=
  match a with
  | AgregarUsuario new_user_name new_user_team =>
      if existsb (String.eqb new_user_team) teams then
        if String.eqb new_user_name "" then Some users
        else Some (add_user new_user_name new_user_team users).2
      else None
  | EliminarUsuario user_id =>
      if existsb (fun u => User.id u =? user_id) (listed_users users)
      then Some (delete_user user_id users).2
      else None
  end.

(** A run of the script: [init_database()], then the click. *)
Definition users_run (a : users_action) (users : table User.t)
    : option (table User.t) :=
  match init_users users with
  | Some users' => users_click a users'
  | None => None
  end.

Inductive users_reachable : table User.t -> Prop :=
| users_created : users_reachable empty_table
| users_after_run a users users' :
    users_reachable users -> users_run a users = Some users' ->
    users_reachable users'.

(** *** Providers *)

(** [INSERT INTO providers]: [provider_id] is UNIQUE, and NULLs do not
    clash with each other. *)
Definition add_provider (name : string)
    (provider_id payment_condition : option string)
    (providers : table Provider.t) : bool * table Provider.t :=
  let clash :=
    match provider_id with
    | Some pid =>
        existsb (fun p => bool_decide (Provider.provider_id p = Some pid))
          (select_all providers)
    | None => false
    end in
  if clash then (false, providers)
  else (true,
        insert_row (fun id => Provider.mk id provider_id name payment_condition)
          providers).

(** ORDER BY name, on the bytes of the text. *)
Fixpoint insert_by_name (x : Provider.t) (l : list Provider.t)
    : list Provider.t :=
  match l with
  | [] => [x]
  | y :: l' =>
      if String.leb (Provider.name x) (Provider.name y) then x :: l
      else y :: insert_by_name x l'
  end.

Definition get_providers (providers : table Provider.t) : list Provider.t :=
  foldr insert_by_name [] (select_all providers).

Definition no_provider_selected : string :=
  "-- Seleccionar proveedor existente --".

(** The end of the handler of the request form: a provider typed in by
    hand is added to the list, with the id as typed; the result of
    [add_provider] is not looked at. *)
Definition register_new_provider
    (selected_provider provider_name provider_id : string)
    (providers : table Provider.t) : table Provider.t :=
  if String.eqb selected_provider no_provider_selected
     && negb (String.eqb provider_name "")
  then (add_provider provider_name (Some provider_id) None providers).2
  else providers.

(** The form of the providers tab of the settings page; [None] is the
    message that asks for a name. *)
Definition add_provider_form
    (new_prov_name new_prov_id new_prov_payment_condition : string)
    (providers : table Provider.t) : option (bool * table Provider.t) :=
  if String.eqb new_prov_name "" then None
  else Some (add_provider new_prov_name (nonempty new_prov_id)
               (nonempty new_prov_payment_condition) providers).

(** What holds of the users table whenever it is reached through the
    page: a row is stored under its id, has a name and one of the two
    teams, and no two rows share a name. *)
Definition users_ok (users : table User.t) : Prop :=
  (forall k u, t_rows users !! k = Some u ->
     User.id u = k /\ User.name u <> "" /\ In (User.team u) teams) /\
  NoDup (map User.name (select_all users)).

(** ** The list of the admin view ([app.py], "Admin - Gestionar Pagos")

    [sorted(requests, key=...)] on amounts, with or without
    [reverse=True]: both are stable, so the element to insert goes
    before the first one that may follow it. *)

Fixpoint insert_with {A : Type} (leb : A -> A -> bool) (x : A) (l : list A)
    : list A :=
  match l with
  | [] => [x]
  | y :: l' => if leb x y then x :: l else y :: insert_with leb x l'
  end.

Definition sorted_with {A : Type} (leb : A -> A -> bool) (l : list A) : list A :=
  foldr (insert_with leb) [] l.

(** The options of the select box "Filtrar por estado". *)
Module Filter.
Inductive t : Type :=
| Todos | PendientePao | AprobadoPao | EnProceso | Completado | Rechazado.
End Filter.

Inductive sort_option : Type :=
| MasRecientes | MasAntiguos | MayorMonto | MenorMonto.

(** [status_map]; "Todos" is not a key of the dict. *)
Definition status_map (f : Filter.t) : option string :=
  match f with
  | Filter.Todos => None
  | Filter.PendientePao => Some "pendiente"
  | Filter.AprobadoPao => Some "aprobado_cfo"
  | Filter.EnProceso => Some "en_proceso"
  | Filter.Completado => Some "completado"
  | Filter.Rechazado => Some "rechazado"
  end.

Definition amount_leb (a b : PR.t) : bool := Qle_bool (PR.amount a) (PR.amount b).

Definition admin_requests (f : Filter.t) (sort_by : sort_option)
    (db : database) : list PR.t :=
  let requests := get_payment_requests (status_map f) db in
  match sort_by with
  | MasRecientes => requests
  | MasAntiguos => sorted_by PR.created_at requests
  | MayorMonto => sorted_with (fun a b => amount_leb b a) requests
  | MenorMonto => sorted_with amount_leb requests
  end.

(** What the two selections ask for: the rows of the filter, and the
    order of the list. *)
Definition passes (f : Filter.t) (r : PR.t) : bool :=
  match status_map f with
  | Some status => String.eqb (PR.status r) status
  | None => true
  end.

Definition in_order (sort_by : sort_option) (a b : PR.t) : Prop :=
  match sort_by with
  | MasRecientes => PR.created_at b <= PR.created_at a
  | MasAntiguos => PR.created_at a <= PR.created_at b
  | MayorMonto => (PR.amount b <= PR.amount a)%Q
  | MenorMonto => (PR.amount a <= PR.amount b)%Q
  end.

(** The statuses the views take for active, spelled out. *)
Definition pendiente_or_en_proceso (r : PR.t) : bool :=
  bool_decide (PR.status r = "pendiente" \/ PR.status r = "en_proceso").






(** Requests of one day in every status, and one with a date that does
    not parse. *)
Definition req_completed_13 : PR.t :=
  request_on 8 "Theta" 900 (Some "2024-03-13") "completado".
Definition req_approved_13 : PR.t :=
  request_on 9 "Omicron" 400 (Some "2024-03-13") "aprobado_cfo".
Definition req_rejected_13 : PR.t :=
  request_on 10 "Sigma" 600 (Some "2024-03-13") "rechazado".

Definition same_day_requests : list PR.t :=
  [req_100; req_completed_13; req_approved_13; req_bad_date; req_rejected_13;
   req_200].

(** Whether the agreed date of a row parses to a date from today up to
    [days] days ahead. *)
Definition due_in_days (today : Date.t) (days : Z) (r : PR.t) : bool :=
  match parse_agreed r with
  | Some d =>
      (Date.toordinal today <=? Date.toordinal d)
      && (Date.toordinal d <=? Date.toordinal today + days)
  | None => false
  end.



(** * Properties *)

(** ** Sorting *)

Section Sorting.
Context {A : Type} (key : A -> Z).

Lemma insert_by_Permutation x l : Permutation (insert_by key x l) (x :: l).
Proof.
  induction l as [|y l IH]; simpl.
  - reflexivity.
  - destruct (key x <=? key y).
    + reflexivity.
    + rewrite IH. apply perm_swap.
Qed.

Lemma sorted_by_Permutation l : Permutation (sorted_by key l) l.
Proof.
  induction l as [|x l IH]; simpl.
  - reflexivity.
  - rewrite insert_by_Permutation. now apply perm_skip.
Qed.

Lemma insert_by_sorted x l :
  StronglySorted (key_le key) l -> StronglySorted (key_le key) (insert_by key x l).
Proof.
  induction 1 as [|y l Hs IH Hall]; simpl.
  - repeat constructor.
  - destruct (Z.leb_spec (key x) (key y)) as [Hle|Hgt].
    + constructor; [now constructor|].
      constructor; [exact Hle|].
      eapply Forall_impl; [exact Hall|].
      unfold key_le; intros; lia.
    + constructor; [exact IH|].
      rewrite insert_by_Permutation.
      constructor; [unfold key_le; lia | exact Hall].
Qed.

Lemma sorted_by_sorted l : StronglySorted (key_le key) (sorted_by key l).
Proof.
  induction l as [|x l IH]; simpl.
  - constructor.
  - now apply insert_by_sorted.
Qed.

Lemma sorted_by_length l : length (sorted_by key l) = length l.
Proof. apply Permutation_length, sorted_by_Permutation. Qed.

Lemma sorted_by_In x l : In x (sorted_by key l) <-> In x l.
Proof.
  split; apply Permutation_in;
    [apply sorted_by_Permutation | symmetry; apply sorted_by_Permutation].
Qed.
End Sorting.

Lemma filter_Permutation {A : Type} (f : A -> bool) (l l' : list A) :
  Permutation l l' -> Permutation (List.filter f l) (List.filter f l').
Proof.
  induction 1 as [|x l l' _ IH|x y l|l l' l'' _ IH1 _ IH2]; simpl.
  - reflexivity.
  - destruct (f x); [now apply perm_skip | exact IH].
  - destruct (f x), (f y); try reflexivity. apply perm_swap.
  - now rewrite IH1.
Qed.

(** ** The record store *)

Lemma update_where_id_found request_id assign db r :
  payment_requests db !! request_id = Some r ->
  update_where_id request_id assign db =
    (true, {| payment_requests := <[request_id := assign r]> (payment_requests db);
              sqlite_sequence := sqlite_sequence db |}).
Proof. intros H. unfold update_where_id. now rewrite H. Qed.

Lemma update_where_id_missing request_id assign db :
  payment_requests db !! request_id = None ->
  update_where_id request_id assign db = (false, db).
Proof. intros H. unfold update_where_id. now rewrite H. Qed.

Lemma update_where_id_other request_id assign db other :
  other <> request_id ->
  get_payment_request other (update_where_id request_id assign db).2 =
  get_payment_request other db.
Proof.
  intros Hne. unfold update_where_id, get_payment_request.
  destruct (payment_requests db !! request_id); simpl; [|reflexivity].
  now rewrite lookup_insert_ne.
Qed.

Lemma update_where_id_same request_id assign db :
  get_payment_request request_id (update_where_id request_id assign db).2 =
  assign <$> get_payment_request request_id db.
Proof.
  unfold update_where_id, get_payment_request.
  destruct (payment_requests db !! request_id) eqn:E; simpl.
  - now rewrite lookup_insert_eq.
  - now rewrite E.
Qed.

Lemma update_where_id_success request_id assign db :
  (update_where_id request_id assign db).1 =
  bool_decide (is_Some (get_payment_request request_id db)).
Proof.
  unfold update_where_id, get_payment_request.
  destruct (payment_requests db !! request_id); reflexivity.
Qed.

(** C4. [update_payment_status] is a partial update. When the key
    exists it returns true; the new row has the given status and
    [updated_at = now]; [admin_notes] and [payment_proof_path] are the
    supplied values, or the stored ones when nothing is supplied;
    [completed_at] is [now] when the new status is completado and the
    stored value otherwise; no other column and no other row changes.
    When the key does not exist the result is false, nothing is raised
    and the database is unchanged. *)
Theorem update_payment_status_partial_update
    request_id status admin_notes payment_proof_path now db :
  match get_payment_request request_id db with
  | Some r =>
      let res := update_payment_status request_id status admin_notes
                   payment_proof_path now db in
      res.1 = true /\
      (exists r', get_payment_request request_id res.2 = Some r' /\
         PR.status r' = status /\
         PR.updated_at r' = now /\
         PR.admin_notes r' =
           match admin_notes with Some n => Some n | None => PR.admin_notes r end /\
         PR.payment_proof_path r' =
           match payment_proof_path with
           | Some p => Some p
           | None => PR.payment_proof_path r
           end /\
         PR.completed_at r' =
           (if String.eqb status "completado" then Some now else PR.completed_at r) /\
         PR.cfo_approved r' = PR.cfo_approved r /\
         PR.cfo_approved_by r' = PR.cfo_approved_by r /\
         PR.cfo_approved_at r' = PR.cfo_approved_at r /\
         PR.same_request_data r r') /\
      (forall other, other <> request_id ->
         get_payment_request other res.2 = get_payment_request other db)
  | None =>
      update_payment_status request_id status admin_notes
        payment_proof_path now db = (false, db)
  end.
Proof.
  destruct (get_payment_request request_id db) as [r|] eqn:E.
  - cbv zeta. split; [|split].
    + unfold update_payment_status. rewrite update_where_id_success, E.
      apply bool_decide_eq_true_2. eauto.
    + unfold update_payment_status. rewrite update_where_id_same, E. simpl.
      eexists; split; [reflexivity|].
      destruct r, admin_notes, payment_proof_path,
        (String.eqb status "completado"); simpl;
        unfold PR.same_request_data; simpl; repeat split; reflexivity.
    + intros other Hne. unfold update_payment_status.
      now apply update_where_id_other.
  - unfold update_payment_status. now apply update_where_id_missing.
Qed.

(** *** The CFO actions *)

Lemma approve_cfo_row request_id approved_by now db :
  get_payment_request request_id (approve_cfo request_id approved_by now db).2 =
  (fun r =>
     PR.set_updated_at now
       (PR.set_status "aprobado_cfo"
          (PR.set_cfo_approved_at (Some now)
             (PR.set_cfo_approved_by (Some approved_by)
                (PR.set_cfo_approved 1 r)))))
    <$> get_payment_request request_id db.
Proof. apply update_where_id_same. Qed.

Lemma reject_cfo_row request_id approved_by reason now db :
  get_payment_request request_id
    (reject_cfo request_id approved_by reason now db).2 =
  (fun r =>
     PR.set_updated_at now
       (PR.set_admin_notes
          (sql_concat
             (coalesce (sql_concat (PR.admin_notes r) (Some " | ")) (Some ""))
             (Some (rejection_note reason)))
          (PR.set_status "rechazado"
             (PR.set_cfo_approved_at (Some now)
                (PR.set_cfo_approved_by (Some approved_by)
                   (PR.set_cfo_approved 0 r))))))
    <$> get_payment_request request_id db.
Proof. apply update_where_id_same. Qed.

(** C1, as the claim states it, fails: on a pending request, approve
    succeeds, and then reject succeeds too and overwrites the approval;
    a second approve of an approved request succeeds as well. *)
Lemma approve_then_reject_both_succeed :
  let first := approve_cfo 1 "CFO" 200 sample_db in
  let again := approve_cfo 1 "CFO" 250 first.2 in
  let second := reject_cfo 1 "CFO" (Some "Falta factura") 300 again.2 in
  first.1 = true /\
  PR.status <$> get_payment_request 1 first.2 = Some "aprobado_cfo" /\
  again.1 = true /\
  PR.updated_at <$> get_payment_request 1 again.2 = Some 250 /\
  second.1 = true /\
  PR.status <$> get_payment_request 1 second.2 = Some "rechazado".
Proof. vm_compute. repeat split. Qed.

(** C1, amended. [approve_cfo] and [reject_cfo] do not look at the
    current status and nothing like InvalidTransition exists: when a
    request with the key exists, whatever its status, each returns true
    and writes its state ([aprobado_cfo], resp. [rechazado]); when none
    exists each returns false and leaves the database as it was. The
    admin view is what restricts the two actions: the buttons Aprobar
    and Rechazar are offered exactly for a row listed as pendiente. *)
Theorem cfo_actions_do_not_check_the_status
    request_id approved_by reason now db :
  match get_payment_request request_id db with
  | Some r =>
      let a := approve_cfo request_id approved_by now db in
      let j := reject_cfo request_id approved_by reason now db in
      a.1 = true /\
      PR.status <$> get_payment_request request_id a.2 = Some "aprobado_cfo" /\
      j.1 = true /\
      PR.status <$> get_payment_request request_id j.2 = Some "rechazado"
  | None =>
      approve_cfo request_id approved_by now db = (false, db) /\
      reject_cfo request_id approved_by reason now db = (false, db)
  end /\
  (forall req reject_reason,
      (is_Some (admin_click req Aprobar now db) <-> PR.status req = "pendiente") /\
      (is_Some (admin_click req (Rechazar reject_reason) now db)
         <-> PR.status req = "pendiente")).
Proof.
  split.
  - destruct (get_payment_request request_id db) as [r|] eqn:E.
    + cbv zeta. rewrite approve_cfo_row, reject_cfo_row, E.
      unfold approve_cfo, reject_cfo. rewrite !update_where_id_success, E.
      repeat split; apply bool_decide_eq_true_2; eauto.
    + unfold approve_cfo, reject_cfo.
      split; now apply update_where_id_missing.
  - intros req reject_reason. unfold admin_click.
    destruct (String.eqb_spec (PR.status req) "pendiente") as [Heq|Hne].
    + split; (split; [intros _; exact Heq | intros _; eauto]).
    + split; (split; [intros [? ?]; discriminate | intros ?; contradiction]).
Qed.

Lemma append_assoc (a b c : string) :
  ((a ++ b) ++ c = a ++ (b ++ c))%string.
Proof.
  induction a as [|x a IH]; [reflexivity|].
  change (String x ((a ++ b) ++ c) = String x (a ++ (b ++ c)))%string.
  now f_equal.
Qed.

(** The effect of [reject_cfo] on the row it finds. *)
Lemma reject_cfo_effect request_id approved_by reason now db r :
  get_payment_request request_id db = Some r ->
  exists r',
    get_payment_request request_id
      (reject_cfo request_id approved_by reason now db).2 = Some r' /\
    PR.cfo_approved r' = 0 /\
    PR.cfo_approved_by r' = Some approved_by /\
    PR.cfo_approved_at r' = Some now /\
    PR.status r' = "rechazado" /\
    PR.updated_at r' = now /\
    PR.admin_notes r' =
      Some (match PR.admin_notes r with
            | None => rejection_note reason
            | Some notes => notes ++ " | " ++ rejection_note reason
            end)%string /\
    PR.completed_at r' = PR.completed_at r /\
    PR.payment_proof_path r' = PR.payment_proof_path r /\
    PR.same_request_data r r'.
Proof.
  intros E. rewrite reject_cfo_row, E. simpl.
  eexists; split; [reflexivity|].
  destruct r as [? ? ? ? ? ? ? ? ? ? ? ? ? ? ? ? ? ? notes ? ? ? ?].
  unfold PR.same_request_data; simpl.
  destruct notes as [notes|]; simpl; repeat split.
  now rewrite append_assoc.
Qed.

(** On a row whose notes are NULL, as a new request has them, the
    rejection note is stored alone. *)
Lemma reject_cfo_null_notes :
  PR.admin_notes <$>
    get_payment_request 1
      (reject_cfo 1 "CFO" (Some "Falta factura") 300 sample_db).2
  = Some (Some "Rechazado por CFO: Falta factura").
Proof. reflexivity. Qed.

(** C3. The code at the failing input: the notes box of a pending
    request is saved while empty, which stores the empty string, and the
    request is then rejected with the reason "Falta factura". The notes
    start with the separator. *)
Theorem reject_cfo_after_saving_empty_notes :
  let saved := after_click 1 (GuardarNotas "") 150 sample_db in
  let rejected := reject_cfo 1 "CFO" (Some "Falta factura") 300 saved in
  PR.admin_notes <$> get_payment_request 1 saved = Some (Some "") /\
  PR.status <$> get_payment_request 1 saved = Some "pendiente" /\
  rejected.1 = true /\
  PR.admin_notes <$> get_payment_request 1 rejected.2
    = Some (Some " | Rechazado por CFO: Falta factura").
Proof. vm_compute. repeat split. Qed.

(** *** Saving the notes *)

(** What the handler of "Guardar Notas" does to the stored row when the
    page shows that row: the notes are replaced, [updated_at] is
    refreshed, and [completed_at] is left alone unless the request is
    completado, in which case it is set to the current time. *)
Lemma guardar_notas_effect request_id admin_notes now db r :
  get_payment_request request_id db = Some r ->
  PR.id r = request_id ->
  exists r',
    get_payment_request request_id
      (after_click request_id (GuardarNotas admin_notes) now db) = Some r' /\
    PR.admin_notes r' = Some admin_notes /\
    PR.status r' = PR.status r /\
    PR.cfo_approved r' = PR.cfo_approved r /\
    PR.cfo_approved_by r' = PR.cfo_approved_by r /\
    PR.cfo_approved_at r' = PR.cfo_approved_at r /\
    PR.payment_proof_path r' = PR.payment_proof_path r /\
    PR.updated_at r' = now /\
    PR.completed_at r' =
      (if String.eqb (PR.status r) "completado" then Some now
       else PR.completed_at r) /\
    PR.same_request_data r r'.
Proof.
  intros E Hid. unfold after_click, admin_view_click. rewrite E.
  unfold admin_click. rewrite Hid. simpl.
  unfold update_payment_status. rewrite update_where_id_same, E. simpl.
  eexists; split; [reflexivity|].
  destruct r; unfold PR.same_request_data; simpl.
  destruct (String.eqb _ "completado"); simpl; repeat split.
Qed.

(** C5. The code at the failing input: the sample request is approved,
    put in process and completed at time 400; saving a note at time 500
    keeps the status and the CFO columns but moves [completed_at] to
    500. *)
Theorem guardar_notas_on_completado_restamps_completed_at :
  let approved := after_click 1 Aprobar 200 sample_db in
  let in_process := after_click 1 MarcarEnProceso 300 approved in
  let completed := after_click 1 (MarcarCompletado None) 400 in_process in
  let annotated := after_click 1 (GuardarNotas "pagado") 500 completed in
  PR.status <$> get_payment_request 1 completed = Some "completado" /\
  PR.completed_at <$> get_payment_request 1 completed = Some (Some 400) /\
  PR.status <$> get_payment_request 1 annotated = Some "completado" /\
  PR.admin_notes <$> get_payment_request 1 annotated = Some (Some "pagado") /\
  PR.cfo_approved_at <$> get_payment_request 1 annotated = Some (Some 200) /\
  PR.completed_at <$> get_payment_request 1 annotated = Some (Some 500).
Proof. vm_compute. repeat split. Qed.

(** *** Creating a request *)

Lemma max_rowid_ge (m : gmap Z PR.t) k r :
  m !! k = Some r -> k <= max_rowid m.
Proof.
  intros H. apply elem_of_map_to_list in H. unfold max_rowid.
  induction (map_to_list m) as [|kv l IH]; simpl.
  - inversion H.
  - apply elem_of_cons in H as [<-|H]; simpl; [lia|].
    specialize (IH H). lia.
Qed.




(** *** Listing the requests *)

Lemma table_scan_Permutation db : Permutation (table_scan db) (all_rows db).
Proof.
  unfold table_scan, all_rows. apply Permutation_map, sorted_by_Permutation.
Qed.

Lemma order_by_created_at_desc_Permutation rows :
  Permutation (order_by_created_at_desc rows) rows.
Proof. apply sorted_by_Permutation. Qed.

Lemma order_by_created_at_desc_newest_first rows :
  newest_first (order_by_created_at_desc rows).
Proof.
  unfold newest_first, order_by_created_at_desc.
  pose proof (sorted_by_sorted (fun r => - PR.created_at r) rows) as H.
  induction H as [|a l Hs IH Hall]; constructor.
  - exact IH.
  - eapply Forall_impl; [exact Hall|].
    unfold key_le; intros; lia.
Qed.

(** C10. With the empty string as the filter, [get_payment_requests]
    returns what it returns without a filter: every row of the table,
    newest first. With a non-empty string it returns the rows with
    exactly that status, newest first. *)
Theorem get_payment_requests_empty_status_is_no_filter db c s :
  get_payment_requests (Some "") db = get_payment_requests None db /\
  Permutation (get_payment_requests None db) (all_rows db) /\
  newest_first (get_payment_requests None db) /\
  let status := String c s in
  Permutation (get_payment_requests (Some status) db)
    (List.filter (fun r => bool_decide (PR.status r = status)) (all_rows db)) /\
  newest_first (get_payment_requests (Some status) db).
Proof.
  split; [reflexivity|]. split; [|split; [|split]].
  - unfold get_payment_requests; simpl.
    rewrite order_by_created_at_desc_Permutation. apply table_scan_Permutation.
  - apply order_by_created_at_desc_newest_first.
  - unfold get_payment_requests; simpl.
    rewrite order_by_created_at_desc_Permutation.
    rewrite (filter_Permutation _ _ _ (table_scan_Permutation db)).
    erewrite List.filter_ext; [reflexivity|].
    intros r; simpl.
    destruct (String.eqb_spec (PR.status r) (String c s)) as [H|H].
    + symmetry; now apply bool_decide_eq_true_2.
    + symmetry; now apply bool_decide_eq_false_2.
  - unfold get_payment_requests; simpl.
    apply order_by_created_at_desc_newest_first.
Qed.

(** ** Binary64 arithmetic *)

Section Binary64.
Local Open Scope Q_scope.

(** *** Powers of two *)

Lemma two_neq_0 : ~ 2 == 0.
Proof. discriminate. Qed.



Lemma pow2_lt a b : (a < b)%Z -> 2 ^ a < 2 ^ b.
Proof. intros H. apply Qpower_lt_compat_l; [exact H | reflexivity]. Qed.

Lemma pow2_succ e : 2 ^ (e + 1) == 2 * 2 ^ e.
Proof. rewrite Qpower_plus by apply two_neq_0. rewrite Qpower_1_r. ring. Qed.


(** *** The binary logarithm *)






(** *** Rounding to the nearest integer *)





(** *** Rounding to binary64 *)















End Binary64.

(** ** Sums of amounts *)

Lemma sum_nil : sum [] = 0%Q.
Proof. reflexivity. Qed.

(** ** Rows with a date *)

Lemma truthy_false_parse_agreed p :
  truthy (PR.agreed_payment_date p) = false -> parse_agreed p = None.
Proof.
  unfold parse_agreed, truthy.
  destruct (PR.agreed_payment_date p) as [s|]; [|reflexivity].
  destruct (String.eqb_spec s "") as [->|]; [reflexivity | discriminate].
Qed.

(** Whether the agreed date of a row is there and parses. *)
Lemma with_date_requests active :
  map request (with_date active) =
  List.filter (fun r => bool_decide (is_Some (parse_agreed r))) active.
Proof.
  induction active as [|p l IH]; [reflexivity|].
  unfold with_date in *. simpl.
  destruct (truthy (PR.agreed_payment_date p)) eqn:T.
  - destruct (parse_agreed p) as [d|]; simpl; [now f_equal | exact IH].
  - rewrite (truthy_false_parse_agreed p T). simpl. exact IH.
Qed.

Lemma with_date_parsed active :
  Forall (fun p => parse_agreed (request p) = Some (payment_date p))
    (with_date active).
Proof.
  induction active as [|p l IH]; [constructor|].
  unfold with_date in *. simpl.
  destruct (truthy (PR.agreed_payment_date p)); [|exact IH].
  destruct (parse_agreed p) as [d|] eqn:E; [|exact IH].
  simpl. constructor; [exact E | exact IH].
Qed.


Lemma with_date_In p active :
  In p (with_date active) -> In (request p) active.
Proof.
  intros H. apply (in_map request) in H.
  rewrite with_date_requests in H. now apply List.filter_In in H.
Qed.

(** ** The cumulative cashflow *)









Lemma is_active_spec r : is_active r = pendiente_or_en_proceso r.
Proof.
  unfold is_active, pendiente_or_en_proceso.
  destruct (String.eqb_spec (PR.status r) "pendiente") as [E1|N1];
    destruct (String.eqb_spec (PR.status r) "en_proceso") as [E2|N2]; simpl;
    symmetry;
    try (apply bool_decide_eq_true_2; tauto).
  apply bool_decide_eq_false_2. tauto.
Qed.





(** ** The calendar *)

Lemma month_payments_flat_map selected_month selected_year all_requests :
  month_payments selected_month selected_year (scheduled_payments all_requests) =
  flat_map
    (fun r =>
       match parse_agreed r with
       | Some d =>
           if is_active r && in_month selected_month selected_year d
           then [{| request := r; payment_date := d |}]
           else []
       | None => []
       end)
    all_requests.
Proof.
  unfold month_payments, scheduled_payments, in_month.
  induction all_requests as [|r l IH]; [reflexivity|]. simpl.
  destruct (truthy (PR.agreed_payment_date r)) eqn:T; simpl.
  - destruct (is_active r); simpl.
    + rewrite IH. reflexivity.
    + rewrite IH. destruct (parse_agreed r); reflexivity.
  - rewrite IH, (truthy_false_parse_agreed r T). reflexivity.
Qed.

Lemma month_payments_requests selected_month selected_year all_requests :
  map request
    (month_payments selected_month selected_year (scheduled_payments all_requests)) =
  List.filter (fun r => is_active r && falls_in selected_month selected_year r)
    all_requests.
Proof.
  rewrite month_payments_flat_map. unfold falls_in.
  induction all_requests as [|r l IH]; [reflexivity|]. simpl.
  rewrite map_app, IH.
  destruct (parse_agreed r) as [d|]; simpl.
  - destruct (is_active r && in_month selected_month selected_year d); reflexivity.
  - now rewrite andb_false_r.
Qed.

Lemma month_payments_parsed selected_month selected_year all_requests :
  Forall (fun p => parse_agreed (request p) = Some (payment_date p) /\
                   in_month selected_month selected_year (payment_date p) = true)
    (month_payments selected_month selected_year (scheduled_payments all_requests)).
Proof.
  rewrite month_payments_flat_map.
  induction all_requests as [|r l IH]; [constructor|]. simpl.
  destruct (parse_agreed r) as [d|] eqn:E; [|exact IH].
  destruct (is_active r); simpl; [|exact IH].
  destruct (in_month selected_month selected_year d) eqn:M; [|exact IH].
  constructor; [now split | exact IH].
Qed.

Lemma payments_by_date_fold (l : list dated) (acc : gmap Date.t (list dated)) d :
  default []
    (fold_left
       (fun (acc : gmap Date.t (list dated)) p =>
          <[payment_date p := (default [] (acc !! payment_date p) ++ [p])%list]> acc)
       l acc !! d) =
  (default [] (acc !! d)
   ++ List.filter (fun p => bool_decide (payment_date p = d)) l)%list.
Proof.
  revert acc. induction l as [|p l IH]; intros acc; simpl.
  - now rewrite app_nil_r.
  - rewrite IH. destruct (decide (payment_date p = d)) as [Heq|Hne].
    + rewrite Heq, lookup_insert_eq, bool_decide_eq_true_2 by reflexivity.
      simpl. now rewrite <- app_assoc.
    + rewrite lookup_insert_ne, bool_decide_eq_false_2 by assumption.
      reflexivity.
Qed.

Lemma day_payments_filter (mp : list dated) d :
  day_payments (payments_by_date mp) d =
  List.filter (fun p => bool_decide (payment_date p = d)) mp.
Proof.
  unfold day_payments, payments_by_date.
  rewrite payments_by_date_fold, lookup_empty. reflexivity.
Qed.

Lemma day_payments_requests selected_month selected_year all_requests d :
  map request
    (List.filter (fun p => bool_decide (payment_date p = d))
       (month_payments selected_month selected_year
          (scheduled_payments all_requests))) =
  List.filter
    (fun r => is_active r && bool_decide (parse_agreed r = Some d)
              && in_month selected_month selected_year d)
    all_requests.
Proof.
  rewrite month_payments_flat_map.
  induction all_requests as [|r l IH]; [reflexivity|]. simpl.
  rewrite List.filter_app, map_app, IH.
  destruct (parse_agreed r) as [d'|]; simpl.
  - destruct (is_active r); simpl.
    + destruct (decide (d' = d)) as [->|Hne].
      * rewrite (bool_decide_eq_true_2 (Some d = Some d)) by reflexivity. simpl.
        destruct (in_month selected_month selected_year d); simpl;
          [|reflexivity].
        now rewrite bool_decide_eq_true_2 by reflexivity.
      * rewrite (bool_decide_eq_false_2 (Some d' = Some d)) by congruence.
        simpl.
        destruct (in_month selected_month selected_year d'); simpl;
          [|reflexivity].
        now rewrite bool_decide_eq_false_2 by assumption.
    + reflexivity.
  - destruct (is_active r); reflexivity.
Qed.

Lemma amounts_requests (l : list dated) : amounts (map request l) = dated_amounts l.
Proof. unfold amounts, dated_amounts. now rewrite map_map. Qed.

Lemma calendar_view_filters all_requests selected_month selected_year d :
  let selected :=
    List.filter (fun r => is_active r && falls_in selected_month selected_year r)
      all_requests in
  let on_date :=
    List.filter
      (fun r => is_active r && bool_decide (parse_agreed r = Some d)
                && in_month selected_month selected_year d)
      all_requests in
  let '(mp, by_date, total) :=
    calendar_view all_requests selected_month selected_year in
  map request mp = selected /\
  Forall (fun p => parse_agreed (request p) = Some (payment_date p) /\
                   in_month selected_month selected_year (payment_date p) = true)
    mp /\
  total = sum (amounts selected) /\
  day_payments by_date d =
    List.filter (fun p => bool_decide (payment_date p = d)) mp /\
  map request (day_payments by_date d) = on_date /\
  length (day_payments by_date d) = length on_date /\
  total_day (day_payments by_date d) = sum (amounts on_date) /\
  (forall r, parse_agreed r = None -> ~ In r (map request mp)).
Proof.
  unfold calendar_view. cbv zeta.
  rewrite day_payments_filter, day_payments_requests, month_payments_requests.
  split; [reflexivity|]. split; [apply month_payments_parsed|].
  split; [unfold total_month; now rewrite <- amounts_requests, month_payments_requests|].
  split; [reflexivity|]. split; [reflexivity|].
  split; [now rewrite <- day_payments_requests, length_map|].
  split; [unfold total_day; now rewrite <- amounts_requests, day_payments_requests|].
  intros r Hnone Hin. apply List.filter_In in Hin as [_ Hin].
  unfold falls_in in Hin. rewrite Hnone in Hin.
  now rewrite andb_false_r in Hin.
Qed.

(** C8. The calendar of a month considers exactly the requests with
    status pendiente or en_proceso whose agreed date parses to a date of
    that month and year, each with its parsed date; the total of the
    month is the sum of their amounts; the payments listed under a date
    are exactly those of them whose date is that date, so the count and
    the total of the day are the number and the sum of the amounts of
    these; a request whose agreed date does not parse appears nowhere,
    and nothing is raised. With requests of 100 and 200 on the same
    day, next to a completed, an approved and a rejected request of
    that day and one whose date does not parse, that day shows the
    first two: 2 payments and a total of 300. *)
Theorem calendar_view_groups_by_date all_requests selected_month selected_year d :
  let selected :=
    List.filter
      (fun r => pendiente_or_en_proceso r
                && falls_in selected_month selected_year r)
      all_requests in
  let on_date :=
    List.filter
      (fun r => pendiente_or_en_proceso r
                && bool_decide (parse_agreed r = Some d)
                && in_month selected_month selected_year d)
      all_requests in
  let '(mp, by_date, total) :=
    calendar_view all_requests selected_month selected_year in
  map request mp = selected /\
  Forall (fun p => parse_agreed (request p) = Some (payment_date p) /\
                   in_month selected_month selected_year (payment_date p) = true)
    mp /\
  total = sum (amounts selected) /\
  day_payments by_date d =
    List.filter (fun p => bool_decide (payment_date p = d)) mp /\
  map request (day_payments by_date d) = on_date /\
  length (day_payments by_date d) = length on_date /\
  total_day (day_payments by_date d) = sum (amounts on_date) /\
  (forall r, parse_agreed r = None -> ~ In r (map request mp)) /\
  let '(mp13, by_date13, total13) := calendar_view same_day_requests 3 2024 in
  let same_day := day_payments by_date13 (Date.mk 2024 3 13) in
  map request mp13 = [req_100; req_200] /\
  map request same_day = [req_100; req_200] /\
  length same_day = 2%nat /\ total_day same_day = 300 # 1 /\
  total13 = 300 # 1.
Proof.
  intros selected on_date.
  assert (E1 : selected =
               List.filter
                 (fun r => is_active r && falls_in selected_month selected_year r)
                 all_requests)
    by (apply List.filter_ext; intros r; now rewrite is_active_spec).
  assert (E2 : on_date =
               List.filter
                 (fun r => is_active r && bool_decide (parse_agreed r = Some d)
                           && in_month selected_month selected_year d)
                 all_requests)
    by (apply List.filter_ext; intros r; now rewrite is_active_spec).
  pose proof (calendar_view_filters all_requests selected_month selected_year d)
    as H.
  cbv zeta in H. rewrite <- E1, <- E2 in H.
  destruct (calendar_view all_requests selected_month selected_year)
    as [[mp by_date] total].
  destruct H as (H1 & H2 & H3 & H4 & H5 & H6 & H7 & H8).
  repeat (split; [assumption|]).
  vm_compute. repeat split; reflexivity.
Qed.

(** ** The next seven days *)

Lemma parse_agreed_truthy p d :
  parse_agreed p = Some d -> truthy (PR.agreed_payment_date p) = true.
Proof.
  intros H. destruct (truthy (PR.agreed_payment_date p)) eqn:T; [reflexivity|].
  rewrite (truthy_false_parse_agreed p T) in H. discriminate.
Qed.

Lemma upcoming_In today scheduled p :
  In p (upcoming today scheduled) <->
  In (request p) scheduled /\
  parse_agreed (request p) = Some (payment_date p) /\
  Date.toordinal today <= Date.toordinal (payment_date p) <= Date.toordinal today + 7.
Proof.
  unfold upcoming. rewrite in_flat_map. unfold Date.leb. split.
  - intros (r & Hr & Hp).
    destruct (parse_agreed r) as [d|] eqn:E; [|contradiction].
    destruct (Z.leb_spec (Date.toordinal today) (Date.toordinal d));
      destruct (Z.leb_spec (Date.toordinal d) (Date.toordinal today + 7));
      simpl in Hp; try contradiction.
    destruct Hp as [<-|[]]. simpl. repeat split; try assumption.
  - intros (Hr & E & Hlo & Hhi). exists (request p). split; [exact Hr|].
    rewrite E.
    destruct (Z.leb_spec (Date.toordinal today) (Date.toordinal (payment_date p)));
      destruct (Z.leb_spec (Date.toordinal (payment_date p)) (Date.toordinal today + 7));
      try lia.
    simpl. left. now destruct p.
Qed.

Lemma upcoming_warnings_In today all_requests w :
  In w (upcoming_warnings today all_requests) <->
  In (w_payment w) (upcoming today (scheduled_payments all_requests)) /\
  w_days_until w = days_until today (w_payment w) /\
  w_urgency w = urgency_of (w_days_until w).
Proof.
  unfold upcoming_warnings. rewrite in_map_iff. split.
  - intros (p & <- & Hp). simpl.
    apply (proj1 (sorted_by_In _ p _)) in Hp. now repeat split.
  - intros (Hp & Hd & Hu). exists (w_payment w). split.
    + destruct w; simpl in *. now subst.
    + now apply (proj2 (sorted_by_In _ (w_payment w) _)).
Qed.

(** C6, as the claim states it, fails: a pending request due three days
    after the reference date is listed, but with urgency medium. *)
Lemma three_days_ahead_is_not_high :
  let today := Date.mk 2024 3 10 in
  PR.status req_100 = "pendiente" /\
  Date.toordinal <$> parse_agreed req_100 = Some (Date.toordinal today + 3) /\
  map (fun w => (PR.id (request (w_payment w)), w_days_until w, w_urgency w))
    (upcoming_warnings today [req_100]) = [(1, 3, medium)].
Proof. repeat split. Qed.

Lemma scheduled_payments_In r all_requests d :
  parse_agreed r = Some d ->
  In r (scheduled_payments all_requests) <->
  In r all_requests /\
  (PR.status r = "pendiente" \/ PR.status r = "en_proceso").
Proof.
  intros Hd. unfold scheduled_payments. rewrite List.filter_In.
  rewrite (parse_agreed_truthy r d Hd), is_active_spec. cbn [andb].
  unfold pendiente_or_en_proceso. now rewrite bool_decide_eq_true.
Qed.

Lemma urgency_of_tiers n :
  (n <= 2 -> urgency_of n = high) /\
  (3 <= n <= 4 -> urgency_of n = medium) /\
  (5 <= n -> urgency_of n = low).
Proof.
  unfold urgency_of.
  destruct (Z.leb_spec n 2), (Z.leb_spec n 4); repeat split; intros; lia || reflexivity.
Qed.

Lemma urgency_tiers_determine n u :
  (n <= 2 -> u = high) -> (3 <= n <= 4 -> u = medium) -> (5 <= n -> u = low) ->
  u = urgency_of n.
Proof.
  intros H1 H2 H3. unfold urgency_of.
  destruct (Z.leb_spec n 2); [now apply H1|].
  destruct (Z.leb_spec n 4); [apply H2|apply H3]; lia.
Qed.

(** The warnings of the next seven days, said without the code: one for
    each request with status pendiente or en_proceso whose agreed date
    parses to a date from today to seven days ahead, with the number of
    days left and the urgency of that number. *)
Lemma upcoming_warnings_spec today all_requests w :
  In w (upcoming_warnings today all_requests) <->
  In (request (w_payment w)) all_requests /\
  (PR.status (request (w_payment w)) = "pendiente" \/
   PR.status (request (w_payment w)) = "en_proceso") /\
  parse_agreed (request (w_payment w)) = Some (payment_date (w_payment w)) /\
  w_days_until w
    = Date.toordinal (payment_date (w_payment w)) - Date.toordinal today /\
  0 <= w_days_until w <= 7 /\
  (w_days_until w <= 2 -> w_urgency w = high) /\
  (3 <= w_days_until w <= 4 -> w_urgency w = medium) /\
  (5 <= w_days_until w -> w_urgency w = low).
Proof.
  rewrite upcoming_warnings_In, upcoming_In. unfold days_until. split.
  - intros ((Hin & Hparse & Hrange) & Hdays & Hu).
    apply (scheduled_payments_In _ _ _ Hparse) in Hin as [Hin Hst].
    destruct (urgency_of_tiers (w_days_until w)) as (T1 & T2 & T3).
    rewrite Hu. repeat split; try assumption; lia.
  - intros (Hin & Hst & Hparse & Hdays & Hrange & T1 & T2 & T3).
    split; [|split; [exact Hdays|now apply urgency_tiers_determine]].
    split; [|split; [exact Hparse|lia]].
    apply (scheduled_payments_In _ _ _ Hparse). now split.
Qed.

(** C6, amended. A request with status pendiente whose agreed date is
    exactly three days after the reference date is listed among the
    payments of the next seven days, with [days_until = 3] and urgency
    medium. The list holds a warning exactly for each request with
    status pendiente or en_proceso whose agreed date parses to a date
    from the reference date to seven days after it; the urgency of a
    warning is high when at most two days are left, medium when three
    or four are, low otherwise. *)
Theorem upcoming_three_days_ahead_is_medium today all_requests r d :
  In r all_requests ->
  PR.status r = "pendiente" ->
  parse_agreed r = Some d ->
  Date.toordinal d = Date.toordinal today + 3 ->
  In {| w_payment := {| request := r; payment_date := d |};
        w_days_until := 3;
        w_urgency := medium |}
     (upcoming_warnings today all_requests) /\
  (forall w,
     In w (upcoming_warnings today all_requests) <->
     In (request (w_payment w)) all_requests /\
     (PR.status (request (w_payment w)) = "pendiente" \/
      PR.status (request (w_payment w)) = "en_proceso") /\
     parse_agreed (request (w_payment w)) = Some (payment_date (w_payment w)) /\
     w_days_until w
       = Date.toordinal (payment_date (w_payment w)) - Date.toordinal today /\
     0 <= w_days_until w <= 7 /\
     (w_days_until w <= 2 -> w_urgency w = high) /\
     (3 <= w_days_until w <= 4 -> w_urgency w = medium) /\
     (5 <= w_days_until w -> w_urgency w = low)).
Proof.
  intros Hin Hst Hd Hord. split; [|apply upcoming_warnings_spec].
  apply upcoming_warnings_spec. cbn [w_payment w_days_until w_urgency request payment_date].
  split; [exact Hin|]. split; [now left|]. split; [exact Hd|].
  split; [lia|]. split; [lia|]. repeat split; intros; lia || reflexivity.
Qed.

Lemma upcoming_three_days_ahead_sample :
  In req_100 [req_200; req_100] /\
  PR.status req_100 = "pendiente" /\
  parse_agreed req_100 = Some (Date.mk 2024 3 13) /\
  Date.toordinal (Date.mk 2024 3 13) = Date.toordinal (Date.mk 2024 3 10) + 3 /\
  In {| w_payment := {| request := req_100; payment_date := Date.mk 2024 3 13 |};
        w_days_until := 3;
        w_urgency := medium |}
     (upcoming_warnings (Date.mk 2024 3 10) [req_200; req_100]).
Proof.
  assert (H1 : In req_100 [req_200; req_100]) by (right; left; reflexivity).
  assert (H2 : PR.status req_100 = "pendiente") by reflexivity.
  assert (H3 : parse_agreed req_100 = Some (Date.mk 2024 3 13)) by reflexivity.
  assert (H4 : Date.toordinal (Date.mk 2024 3 13)
               = Date.toordinal (Date.mk 2024 3 10) + 3) by reflexivity.
  repeat (split; [assumption|]).
  exact (proj1 (upcoming_three_days_ahead_is_medium
                  (Date.mk 2024 3 10) [req_200; req_100] req_100
                  (Date.mk 2024 3 13) H1 H2 H3 H4)).
Defined.

(** ** Calendar arithmetic *)

Ltac each_month m :=
  let H := fresh in
  assert (H : m = 1 \/ m = 2 \/ m = 3 \/ m = 4 \/ m = 5 \/ m = 6 \/ m = 7
              \/ m = 8 \/ m = 9 \/ m = 10 \/ m = 11 \/ m = 12) by lia;
  destruct H as [?|[?|[?|[?|[?|[?|[?|[?|[?|[?|[?|?]]]]]]]]]]]; subst m.

Lemma strptime_ymd_valid s d : strptime_ymd s = Some d -> Date.valid d = true.
Proof.
  unfold strptime_ymd. intros H.
  repeat case_match; try discriminate.
  now inversion H; subst.
Qed.

Lemma valid_bounds d :
  Date.valid d = true ->
  1 <= Date.year d <= 9999 /\ 1 <= Date.month d <= 12 /\
  1 <= Date.day d <= Date.days_in_month (Date.year d) (Date.month d).
Proof.
  unfold Date.valid. rewrite !andb_true_iff, !Z.leb_le. tauto.
Qed.

Lemma days_before_year_succ y :
  Date.days_before_year (y + 1) =
  Date.days_before_year y + 365 + (if Date.is_leap y then 1 else 0).
Proof.
  unfold Date.days_before_year, Date.is_leap. cbv zeta.
  replace (y + 1 - 1) with y by lia.
  destruct (Z.eqb_spec (y mod 4) 0), (Z.eqb_spec (y mod 100) 0),
    (Z.eqb_spec (y mod 400) 0); simpl;
    Z.to_euclidean_division_equations; lia.
Qed.

Lemma days_before_year_mono y y' :
  y <= y' -> Date.days_before_year y <= Date.days_before_year y'.
Proof.
  unfold Date.days_before_year. cbv zeta. intros.
  Z.to_euclidean_division_equations; lia.
Qed.

Lemma days_in_month_bounds y m : 28 <= Date.days_in_month y m <= 31.
Proof. unfold Date.days_in_month. repeat case_match; lia. Qed.

Lemma days_before_month_nonneg y m : 0 <= Date.days_before_month y m.
Proof. unfold Date.days_before_month. repeat case_match; lia. Qed.

Lemma year_length y m :
  1 <= m <= 12 ->
  Date.days_before_month y m + Date.days_in_month y m
  <= 365 + (if Date.is_leap y then 1 else 0).
Proof.
  intros Hm. each_month m;
    unfold Date.days_before_month, Date.days_in_month;
    destruct (Date.is_leap y); simpl; lia.
Qed.

Lemma month_before_same_year y m m' :
  1 <= m -> m < m' -> m' <= 12 ->
  Date.days_before_month y m + Date.days_in_month y m
  <= Date.days_before_month y m'.
Proof.
  intros. each_month m; each_month m'; try lia;
    unfold Date.days_before_month, Date.days_in_month;
    destruct (Date.is_leap y); simpl; lia.
Qed.

(** The first day of a later month comes after the last day of an
    earlier one. *)
Lemma month_before y m y' m' :
  1 <= m <= 12 -> 1 <= m' <= 12 -> y < y' \/ (y = y' /\ m < m') ->
  Date.toordinal (Date.mk y m 1) + Date.days_in_month y m
  <= Date.toordinal (Date.mk y' m' 1).
Proof.
  intros Hm Hm' [Hy|[<- Hlt]]; unfold Date.toordinal; simpl.
  - pose proof (year_length y m Hm). pose proof (days_before_year_succ y).
    pose proof (days_before_year_mono (y + 1) y' ltac:(lia)).
    pose proof (days_before_month_nonneg y' m'). lia.
  - pose proof (month_before_same_year y m m' ltac:(lia) Hlt ltac:(lia)). lia.
Qed.

Lemma add_months_first y m :
  1 <= m <= 12 ->
  Date.add_months (Date.mk y m 1) 1 =
  if m =? 12 then Date.mk (y + 1) 1 1 else Date.mk y (m + 1) 1.
Proof.
  intros Hm. unfold Date.add_months. simpl.
  pose proof (days_in_month_bounds (y + 1) (m + 1 - 12)).
  pose proof (days_in_month_bounds y (m + 1)).
  destruct (Z.ltb_spec 12 (m + 1)), (Z.ltb_spec (m + 1) 1), (Z.eqb_spec m 12);
    try lia; f_equal; lia.
Qed.

(** From the first day of a month to the first day of the next there
    are as many days as the month has. *)
Lemma month_span y m :
  1 <= m <= 12 ->
  Date.toordinal (Date.add_months (Date.mk y m 1) 1) =
  Date.toordinal (Date.mk y m 1) + Date.days_in_month y m.
Proof.
  intros Hm. rewrite add_months_first by assumption.
  each_month m; simpl (_ =? _); cbv iota;
    unfold Date.toordinal, Date.days_before_month, Date.days_in_month; simpl;
    try rewrite days_before_year_succ; destruct (Date.is_leap y); simpl; lia.
Qed.

(** A date lies between the first day of a month and the day before the
    first day of the next month exactly when it is a date of that month. *)
Lemma in_calendar_month d y m :
  Date.valid d = true -> 1 <= m <= 12 ->
  Date.leb (Date.mk y m 1) d
  && (Date.toordinal d <=? Date.toordinal (Date.add_months (Date.mk y m 1) 1) - 1)
  = (Date.year d =? y) && (Date.month d =? m).
Proof.
  intros Hv Hm. apply valid_bounds in Hv as (_ & Hmd & Hdd).
  rewrite month_span by assumption. unfold Date.leb.
  destruct d as [yd md dd]; simpl in *.
  assert (Hd : Date.toordinal (Date.mk yd md dd)
               = Date.toordinal (Date.mk yd md 1) + dd - 1)
    by (unfold Date.toordinal; simpl; lia).
  rewrite Hd.
  destruct (Z.eqb_spec yd y) as [->|Hy];
    [destruct (Z.eqb_spec md m) as [->|Hmm]|]; simpl.
  - apply andb_true_iff. rewrite !Z.leb_le. lia.
  - apply andb_false_iff. rewrite !Z.leb_gt.
    destruct (Z.lt_total md m) as [Hlt|[?|Hgt]]; [|contradiction|].
    + left. pose proof (month_before y md y m Hmd Hm
                          ltac:(right; split; [reflexivity|lia])). lia.
    + right. pose proof (month_before y m y md Hm Hmd
                           ltac:(right; split; [reflexivity|lia])). lia.
  - apply andb_false_iff. rewrite !Z.leb_gt.
    destruct (Z.lt_total yd y) as [Hlt|[?|Hgt]]; [|contradiction|].
    + left. pose proof (month_before yd md y m Hmd Hm ltac:(left; lia)). lia.
    + right. pose proof (month_before y m yd md Hm Hmd ltac:(left; lia)). lia.
Qed.

Lemma add_months_month_bounds today i :
  Date.valid today = true -> 0 <= i <= 12 ->
  1 <= Date.month (Date.add_months today i) <= 12.
Proof.
  intros Hv Hi. apply valid_bounds in Hv as (_ & Hm & _).
  unfold Date.add_months; simpl.
  destruct (Z.ltb_spec 12 (Date.month today + i)),
    (Z.ltb_spec (Date.month today + i) 1); lia.
Qed.


(** The monthly bucket [i] holds the payments of the calendar month
    that lies [i] months after today's. *)
Lemma month_bucket_is_calendar_month today i wd :
  Date.valid today = true -> 0 <= i <= 12 ->
  Forall (fun p => parse_agreed (request p) = Some (payment_date p)) wd ->
  month_bucket_payments today i wd =
  List.filter (fun p => same_month (payment_date p) (Date.add_months today i)) wd.
Proof.
  intros Hv Hi Hwd. unfold month_bucket_payments.
  apply List.filter_ext_in. intros p Hp.
  assert (Hvp : Date.valid (payment_date p) = true).
  { pose proof (proj1 (List.Forall_forall _ _) Hwd p Hp) as E.
    unfold parse_agreed in E.
    destruct (PR.agreed_payment_date (request p)); [|discriminate].
    now apply strptime_ymd_valid in E. }
  unfold month_end, month_start, Date.replace_day, same_month.
  apply in_calendar_month; [exact Hvp|].
  now apply add_months_month_bounds.
Qed.

(** ** The projection *)

Lemma range_In i n : In i (range n) <-> 0 <= i < Z.of_nat n.
Proof.
  unfold range. rewrite in_map_iff. split.
  - intros (k & <- & Hk). apply in_seq in Hk. lia.
  - intros Hi. exists (Z.to_nat i). split; [lia|]. apply in_seq. lia.
Qed.




(** ** The life of a request under the interface *)

Lemma update_where_id_invariant (P : Z -> PR.t -> Prop) request_id assign db r :
  payment_requests db !! request_id = Some r ->
  (forall k r0, payment_requests db !! k = Some r0 -> P k r0) ->
  P request_id (assign r) ->
  forall k r', payment_requests (update_where_id request_id assign db).2 !! k = Some r' ->
    P k r'.
Proof.
  intros E Hall Hnew k r'. rewrite (update_where_id_found _ _ _ _ E). simpl.
  destruct (decide (request_id = k)) as [<-|Hne].
  - rewrite lookup_insert_eq. now intros [= <-].
  - rewrite lookup_insert_ne by assumption. apply Hall.
Qed.

Lemma stage_of_spec status st :
  stage_of status = Some st ->
  status = match st with
           | Pendiente => "pendiente" | AprobadoCfo => "aprobado_cfo"
           | EnProceso => "en_proceso" | Completado => "completado"
           | Rechazado => "rechazado"
           end.
Proof.
  unfold stage_of.
  destruct (String.eqb_spec status "pendiente") as [->|?];
    [now intros [= <-]|].
  destruct (String.eqb_spec status "aprobado_cfo") as [->|?];
    [now intros [= <-]|].
  destruct (String.eqb_spec status "en_proceso") as [->|?];
    [now intros [= <-]|].
  destruct (String.eqb_spec status "completado") as [->|?];
    [now intros [= <-]|].
  destruct (String.eqb_spec status "rechazado") as [->|?];
    [now intros [= <-]|].
  discriminate.
Qed.

Lemma lifecycle_ok_stage r :
  lifecycle_ok r ->
  exists st, stage_of (PR.status r) = Some st /\ columns_ok st r.
Proof. now intros [H _]. Qed.

Ltac lifecycle r H :=
  let st := fresh "st" in let Hst := fresh "Hst" in let Hc := fresh "Hc" in
  destruct H as ((st & Hst & Hc) & ? & ? & ?);
  pose proof (stage_of_spec _ _ Hst);
  destruct r; simpl in *; subst;
  destruct st; try discriminate; simpl in *;
  (split; [eexists; (split; [reflexivity|]); simpl; intuition eauto
          | intuition eauto]).

Lemma approve_keeps_lifecycle now r :
  lifecycle_ok r -> PR.status r = "pendiente" ->
  lifecycle_ok
    (PR.set_updated_at now
       (PR.set_status "aprobado_cfo"
          (PR.set_cfo_approved_at (Some now)
             (PR.set_cfo_approved_by (Some "CFO") (PR.set_cfo_approved 1 r))))).
Proof. intros H Hs. lifecycle r H. Qed.

Lemma reject_keeps_lifecycle now reason r :
  lifecycle_ok r -> PR.status r = "pendiente" ->
  lifecycle_ok
    (PR.set_updated_at now
       (PR.set_admin_notes
          (sql_concat
             (coalesce (sql_concat (PR.admin_notes r) (Some " | ")) (Some ""))
             (Some (rejection_note reason)))
          (PR.set_status "rechazado"
             (PR.set_cfo_approved_at (Some now)
                (PR.set_cfo_approved_by (Some "CFO")
                   (PR.set_cfo_approved 0 r)))))).
Proof.
  intros H Hs. lifecycle r H.
  destruct admin_notes; simpl; eauto.
Qed.

Lemma update_payment_status_assignment request_id status admin_notes proof now db :
  update_payment_status request_id status admin_notes proof now db =
  update_where_id request_id (status_assignment status admin_notes proof now) db.
Proof. reflexivity. Qed.

Lemma en_proceso_keeps_lifecycle now r :
  lifecycle_ok r -> PR.status r = "aprobado_cfo" ->
  lifecycle_ok (status_assignment "en_proceso" None None now r).
Proof. intros H Hs. lifecycle r H. Qed.

Lemma completado_keeps_lifecycle proof now r :
  lifecycle_ok r -> PR.status r = "en_proceso" ->
  lifecycle_ok (status_assignment "completado" None proof now r).
Proof. intros H Hs. destruct proof; lifecycle r H. Qed.

Lemma notas_keep_lifecycle notes now r :
  lifecycle_ok r ->
  lifecycle_ok (status_assignment (PR.status r) (Some notes) None now r).
Proof. intros H. lifecycle r H. Qed.

Lemma submit_payment_request_form_created f now db request_id db' :
  submit_payment_request_form f now db = inr (Ok (request_id, db')) ->
  f_provider_name f <> "" /\ f_np_number f <> "" /\ (0 < f_amount f)%Q /\
  request_id = next_rowid db /\
  exists row,
    db' = {| payment_requests := <[request_id := row]> (payment_requests db);
             sqlite_sequence := request_id |} /\
    PR.id row = request_id /\ PR.status row = "pendiente" /\
    PR.provider_name row = f_provider_name f /\
    PR.np_number row = Some (f_np_number f) /\
    PR.amount row = f_amount f /\
    PR.requested_by row = f_selected_user f /\
    PR.agreed_payment_date row = option_map isoformat (f_agreed_date f) /\
    PR.created_at row = now /\
    columns_ok Pendiente row.
Proof.
  unfold submit_payment_request_form.
  destruct (String.eqb_spec (f_provider_name f) "") as [|H1]; [discriminate|].
  destruct (String.eqb_spec (f_np_number f) "") as [|H2]; [discriminate|].
  destruct (Qle_bool (f_amount f) 0) eqn:H3; [discriminate|].
  unfold create_payment_request, request_data_of_form. simpl.
  intros [= <- <-].
  repeat (split; [assumption || reflexivity|]).
  split.
  { apply Qnot_le_lt. intros Hle. apply Qle_bool_iff in Hle. congruence. }
  split; [reflexivity|].
  eexists. split; [reflexivity|]. simpl. repeat split; reflexivity.
Qed.

Lemma status_assignment_id status admin_notes proof now r :
  PR.id (status_assignment status admin_notes proof now r) = PR.id r.
Proof.
  unfold status_assignment.
  destruct r, admin_notes, proof, (String.eqb status "completado"); reflexivity.
Qed.

Lemma ui_step_keeps_rows_consistent db db' :
  ui_step db db' ->
  (forall k r, payment_requests db !! k = Some r -> PR.id r = k /\ lifecycle_ok r) ->
  forall k r, payment_requests db' !! k = Some r -> PR.id r = k /\ lifecycle_ok r.
Proof.
  intros Hstep Hall. destruct Hstep as [f now db request_id db' H|request_id b now db res H].
  - apply submit_payment_request_form_created in H
      as (H1 & H2 & H3 & _ & row & -> & Hid & Hst & Hpn & Hnp & Ham & _ & _ & _ & Hc).
    intros k r. simpl. destruct (decide (request_id = k)) as [<-|Hne].
    + rewrite lookup_insert_eq. intros [= <-]. split; [exact Hid|].
      split; [|split; [|split]].
      * exists Pendiente. split; [now rewrite Hst | exact Hc].
      * now rewrite Ham.
      * now rewrite Hpn.
      * exists (f_np_number f). now split.
    + rewrite lookup_insert_ne by assumption. apply Hall.
  - unfold admin_view_click, get_payment_request in H.
    destruct (payment_requests db !! request_id) as [req|] eqn:E; [|discriminate].
    destruct (Hall _ _ E) as [Hid Hok].
    unfold admin_click in H. rewrite Hid in H.
    destruct b as [|reject_reason| |proof_path|admin_notes].
    + destruct (String.eqb_spec (PR.status req) "pendiente") as [Hs|];
        [|discriminate].
      injection H as <-. unfold approve_cfo.
      apply (update_where_id_invariant _ _ _ _ _ E Hall).
      split; [now destruct req | now apply approve_keeps_lifecycle].
    + destruct (String.eqb_spec (PR.status req) "pendiente") as [Hs|];
        [|discriminate].
      injection H as <-. unfold reject_cfo.
      apply (update_where_id_invariant _ _ _ _ _ E Hall).
      split; [now destruct req | now apply reject_keeps_lifecycle].
    + destruct (String.eqb_spec (PR.status req) "pendiente"); [discriminate|].
      destruct (String.eqb_spec (PR.status req) "aprobado_cfo") as [Hs|];
        [|discriminate].
      injection H as <-. rewrite update_payment_status_assignment.
      apply (update_where_id_invariant _ _ _ _ _ E Hall).
      split; [now rewrite status_assignment_id
             | now apply en_proceso_keeps_lifecycle].
    + destruct (String.eqb_spec (PR.status req) "pendiente"); [discriminate|].
      destruct (String.eqb_spec (PR.status req) "aprobado_cfo"); [discriminate|].
      destruct (String.eqb_spec (PR.status req) "en_proceso") as [Hs|];
        [|discriminate].
      injection H as <-. rewrite update_payment_status_assignment.
      apply (update_where_id_invariant _ _ _ _ _ E Hall).
      split; [now rewrite status_assignment_id
             | now apply completado_keeps_lifecycle].
    + injection H as <-. rewrite update_payment_status_assignment.
      apply (update_where_id_invariant _ _ _ _ _ E Hall).
      split; [now rewrite status_assignment_id
             | now apply notas_keep_lifecycle].
Qed.

(** X1. In every state that the request form and the buttons of the
    admin view can produce from the empty table, each row is stored
    under its own id, its status is one of the five states, its CFO
    columns and its completion columns are those of that state
    ([completed_at] is set exactly for completado, the CFO columns
    exactly from the CFO decision on), the amount is positive, and the
    provider name and the NP number are not empty. *)
Theorem reachable_rows_are_consistent db k r :
  reachable db ->
  payment_requests db !! k = Some r ->
  PR.id r = k /\ lifecycle_ok r.
Proof.
  intros Hreach. revert k r.
  induction Hreach as [|db db' _ IH Hstep]; intros k r.
  - unfold empty_database; simpl. rewrite lookup_empty. discriminate.
  - now apply (ui_step_keeps_rows_consistent db db').
Qed.

Lemma reachable_rows_sample :
  exists db r,
    reachable db /\ payment_requests db !! 1 = Some r /\
    PR.status r = "aprobado_cfo" /\ PR.id r = 1 /\ lifecycle_ok r.
Proof.
  assert (R : exists db r, reachable db /\ payment_requests db !! 1 = Some r
                           /\ PR.status r = "aprobado_cfo").
  { eexists. eexists. split; [|split].
    - eapply reachable_step.
      + eapply reachable_step; [apply reachable_empty|].
        eapply (step_submit sample_form 100 empty_database).
        vm_compute. reflexivity.
      + eapply (step_click 1 Aprobar 200). vm_compute. reflexivity.
    - vm_compute. reflexivity.
    - reflexivity. }
  destruct R as (db & r & R & E & S).
  exists db, r. split; [exact R|]. split; [exact E|]. split; [exact S|].
  exact (reachable_rows_are_consistent db 1 r R E).
Defined.

Lemma status_assignment_status status admin_notes proof now r :
  PR.status (status_assignment status admin_notes proof now r) = status.
Proof.
  unfold status_assignment.
  destruct r, admin_notes, proof, (String.eqb status "completado"); reflexivity.
Qed.

Lemma status_assignment_same_request_data status admin_notes proof now r :
  PR.same_request_data r (status_assignment status admin_notes proof now r).
Proof.
  unfold status_assignment, PR.same_request_data.
  destruct r, admin_notes, proof, (String.eqb status "completado"); simpl;
    repeat split.
Qed.

(** X2. A click in the admin view, on a page drawn from the stored row,
    succeeds and moves the status of that request along the state
    machine only: pendiente to aprobado_cfo or rechazado, aprobado_cfo
    to en_proceso, en_proceso to completado, or no move at all (saving
    the notes). In particular no button changes the status of a
    rechazado or completado request. The data of the request and all
    other requests are left as they were. *)
Theorem admin_view_follows_the_state_machine request_id b now db r res :
  PR.id r = request_id ->
  get_payment_request request_id db = Some r ->
  admin_view_click request_id b now db = Some res ->
  res.1 = true /\
  (exists r',
      get_payment_request request_id res.2 = Some r' /\
      transition (PR.status r) (PR.status r') /\
      (PR.status r = "rechazado" \/ PR.status r = "completado" ->
       PR.status r' = PR.status r) /\
      PR.same_request_data r r') /\
  (forall other, other <> request_id ->
     get_payment_request other res.2 = get_payment_request other db).
Proof.
  intros Hid E H. unfold admin_view_click in H. rewrite E in H.
  unfold admin_click in H. rewrite Hid in H.
  assert (Hrow : forall assign,
             (update_where_id request_id assign db).1 = true /\
             get_payment_request request_id (update_where_id request_id assign db).2
               = Some (assign r) /\
             (forall other, other <> request_id ->
                get_payment_request other (update_where_id request_id assign db).2
                = get_payment_request other db)).
  { intros assign. split; [|split].
    - rewrite update_where_id_success, E. apply bool_decide_eq_true_2. eauto.
    - now rewrite update_where_id_same, E.
    - intros other Hne. now apply update_where_id_other. }
  unfold transition.
  destruct b as [|reject_reason| |proof_path|admin_notes].
  - destruct (String.eqb_spec (PR.status r) "pendiente") as [Hs|]; [|discriminate].
    injection H as <-. unfold approve_cfo.
    destruct (Hrow (fun r =>
      PR.set_updated_at now
        (PR.set_status "aprobado_cfo"
           (PR.set_cfo_approved_at (Some now)
              (PR.set_cfo_approved_by (Some "CFO") (PR.set_cfo_approved 1 r))))))
      as (H1 & H2 & H3).
    split; [exact H1|]. split; [|exact H3].
    eexists. split; [exact H2|]. rewrite Hs.
    destruct r; unfold PR.same_request_data; simpl.
    split; [left; split; [reflexivity | now left]|].
    split; [intros [?|?]; discriminate | repeat split].
  - destruct (String.eqb_spec (PR.status r) "pendiente") as [Hs|]; [|discriminate].
    injection H as <-. unfold reject_cfo.
    destruct (Hrow (fun r =>
      PR.set_updated_at now
        (PR.set_admin_notes
           (sql_concat
              (coalesce (sql_concat (PR.admin_notes r) (Some " | ")) (Some ""))
              (Some (rejection_note (Some reject_reason))))
           (PR.set_status "rechazado"
              (PR.set_cfo_approved_at (Some now)
                 (PR.set_cfo_approved_by (Some "CFO")
                    (PR.set_cfo_approved 0 r)))))))
      as (H1 & H2 & H3).
    split; [exact H1|]. split; [|exact H3].
    eexists. split; [exact H2|]. rewrite Hs.
    destruct r; unfold PR.same_request_data; simpl.
    split; [left; split; [reflexivity | now right]|].
    split; [intros [?|?]; discriminate | repeat split].
  - destruct (String.eqb_spec (PR.status r) "pendiente"); [discriminate|].
    destruct (String.eqb_spec (PR.status r) "aprobado_cfo") as [Hs|];
      [|discriminate].
    injection H as <-. rewrite update_payment_status_assignment.
    destruct (Hrow (status_assignment "en_proceso" None None now))
      as (H1 & H2 & H3).
    split; [exact H1|]. split; [|exact H3].
    eexists. split; [exact H2|]. rewrite status_assignment_status, Hs.
    split; [right; left; now split|].
    split; [intros [?|?]; discriminate
           | apply status_assignment_same_request_data].
  - destruct (String.eqb_spec (PR.status r) "pendiente"); [discriminate|].
    destruct (String.eqb_spec (PR.status r) "aprobado_cfo"); [discriminate|].
    destruct (String.eqb_spec (PR.status r) "en_proceso") as [Hs|];
      [|discriminate].
    injection H as <-. rewrite update_payment_status_assignment.
    destruct (Hrow (status_assignment "completado" None proof_path now))
      as (H1 & H2 & H3).
    split; [exact H1|]. split; [|exact H3].
    eexists. split; [exact H2|]. rewrite status_assignment_status, Hs.
    split; [right; right; left; now split|].
    split; [intros [?|?]; discriminate
           | apply status_assignment_same_request_data].
  - injection H as <-. rewrite update_payment_status_assignment.
    destruct (Hrow (status_assignment (PR.status r) (Some admin_notes) None now))
      as (H1 & H2 & H3).
    split; [exact H1|]. split; [|exact H3].
    eexists. split; [exact H2|]. rewrite status_assignment_status.
    split; [now right; right; right|].
    split; [reflexivity | apply status_assignment_same_request_data].
Qed.

Lemma admin_view_state_machine_sample :
  PR.id sample_request = 1 /\
  get_payment_request 1 sample_db = Some sample_request /\
  (exists res, admin_view_click 1 Aprobar 200 sample_db = Some res /\
     res.1 = true /\
     PR.status <$> get_payment_request 1 res.2 = Some "aprobado_cfo").
Proof.
  assert (H1 : PR.id sample_request = 1) by reflexivity.
  assert (H2 : get_payment_request 1 sample_db = Some sample_request)
    by reflexivity.
  split; [exact H1|]. split; [exact H2|].
  eexists. split; [vm_compute; reflexivity|].
  pose proof (fun res H3 =>
                admin_view_follows_the_state_machine 1 Aprobar 200 sample_db
                  sample_request res H1 H2 H3) as H.
  split; [|vm_compute; reflexivity].
  eapply H. vm_compute. reflexivity.
Defined.

(** ** Keys *)

Lemma max_rowid_le (m : gmap Z PR.t) b :
  0 <= b -> (forall k r, m !! k = Some r -> k <= b) -> max_rowid m <= b.
Proof.
  intros Hb Hall. unfold max_rowid.
  assert (H : forall kv, kv ∈ map_to_list m -> kv.1 <= b).
  { intros [k r] Hin. apply elem_of_map_to_list in Hin. simpl. eauto. }
  induction (map_to_list m) as [|kv l IH]; simpl; [exact Hb|].
  pose proof (H kv ltac:(left)).
  assert (foldr (fun kv acc => Z.max kv.1 acc) 0 l <= b)
    by (apply IH; intros; apply H; now right).
  lia.
Qed.

Lemma create_payment_request_ok data now db request_id db' :
  create_payment_request data now db = Ok (request_id, db') ->
  request_id = next_rowid db /\
  exists row,
    PR.id row = request_id /\
    db' = {| payment_requests := <[request_id := row]> (payment_requests db);
             sqlite_sequence := request_id |}.
Proof.
  unfold create_payment_request.
  destruct (d_provider_name data) as [|[?|]]; simpl; try discriminate;
    destruct (d_amount data) as [|[?|]]; simpl; try discriminate;
    destruct (d_payment_type data) as [|[?|]]; simpl; try discriminate;
    destruct (d_payment_method data) as [|[?|]]; simpl; try discriminate;
    destruct (d_requested_by data) as [|[?|]]; simpl; try discriminate.
  intros [= <- <-]. split; [reflexivity|].
  eexists. split; [|reflexivity]. reflexivity.
Qed.

Lemma next_rowid_after_insert db row :
  0 <= sqlite_sequence db ->
  next_rowid
    {| payment_requests := <[next_rowid db := row]> (payment_requests db);
       sqlite_sequence := next_rowid db |} = next_rowid db + 1.
Proof.
  intros Hseq. unfold next_rowid at 1. simpl.
  assert (Hle : max_rowid (<[next_rowid db := row]> (payment_requests db))
                <= next_rowid db).
  { apply max_rowid_le.
    - unfold next_rowid. lia.
    - intros k r. destruct (decide (next_rowid db = k)) as [<-|Hne].
      + lia.
      + rewrite lookup_insert_ne by assumption. intros H.
        apply max_rowid_ge in H. unfold next_rowid. lia. }
  lia.
Qed.

(** X4. Keys are handed out in increasing order and never reused: when
    two requests are created one after the other, the second key is the
    first plus one; the first key is larger than every key of the table
    and than the counter before it; and the second creation leaves the
    first row as it was. *)
Theorem create_payment_request_keys_increase
    data now db request_id db' data' now' request_id' db'' :
  0 <= sqlite_sequence db ->
  create_payment_request data now db = Ok (request_id, db') ->
  create_payment_request data' now' db' = Ok (request_id', db'') ->
  request_id' = request_id + 1 /\
  sqlite_sequence db < request_id /\
  (forall k r, payment_requests db !! k = Some r -> k < request_id) /\
  is_Some (get_payment_request request_id db') /\
  get_payment_request request_id db'' = get_payment_request request_id db'.
Proof.
  intros Hseq H1 H2.
  apply create_payment_request_ok in H1 as (-> & row & _ & ->).
  apply create_payment_request_ok in H2 as (-> & row' & _ & ->).
  rewrite next_rowid_after_insert by assumption.
  split; [reflexivity|]. split; [unfold next_rowid; lia|].
  split.
  { intros k r H. apply max_rowid_ge in H. unfold next_rowid. lia. }
  unfold get_payment_request; simpl. rewrite lookup_insert_eq.
  split; [eauto|].
  rewrite lookup_insert_ne by lia. now rewrite lookup_insert_eq.
Qed.

Lemma create_payment_request_keys_sample :
  let db' := db_of (create_payment_request sample_data 200 sample_db) sample_db in
  let db'' := db_of (create_payment_request sample_data 300 db') db' in
  0 <= sqlite_sequence sample_db /\
  create_payment_request sample_data 200 sample_db = Ok (2, db') /\
  create_payment_request sample_data 300 db' = Ok (3, db'') /\
  3 = 2 + 1.
Proof.
  intros db' db''.
  assert (H0 : 0 <= sqlite_sequence sample_db) by (simpl; lia).
  assert (H1 : create_payment_request sample_data 200 sample_db = Ok (2, db'))
    by (vm_compute; reflexivity).
  assert (H2 : create_payment_request sample_data 300 db' = Ok (3, db''))
    by (vm_compute; reflexivity).
  split; [exact H0|]. split; [exact H1|]. split; [exact H2|].
  exact (proj1 (create_payment_request_keys_increase
                  sample_data 200 sample_db 2 db' sample_data 300 3 db''
                  H0 H1 H2)).
Defined.

(** ** More on the views *)

Lemma StronglySorted_app_inv {A : Type} (R : A -> A -> Prop) (l1 l2 : list A) :
  StronglySorted R (l1 ++ l2) ->
  forall a b, In a l1 -> In b l2 -> R a b.
Proof.
  induction l1 as [|x l1 IH]; intros H a b Ha Hb; [contradiction|].
  simpl in H. apply StronglySorted_inv in H as [Hs Hall].
  destruct Ha as [<-|Ha].
  - apply (proj1 (List.Forall_forall _ _) Hall). apply in_or_app. now right.
  - now apply IH.
Qed.

Lemma StronglySorted_filter {A : Type} (R : A -> A -> Prop) (f : A -> bool) l :
  StronglySorted R l -> StronglySorted R (List.filter f l).
Proof.
  induction 1 as [|x l Hs IH Hall]; simpl; [constructor|].
  destruct (f x); [|exact IH].
  constructor; [exact IH|].
  apply List.Forall_forall. intros y Hy. apply List.filter_In in Hy as [Hy _].
  exact (proj1 (List.Forall_forall _ _) Hall y Hy).
Qed.

(** X5. The production view shows at most five requests, all asked by
    the selected user and all stored in the table, newest first; they
    are the newest ones of that user: no request of the user that is
    left out is newer than one that is shown. *)
Theorem my_requests_are_the_five_newest selected_user db :
  let mine := requests_of selected_user (get_payment_requests None db) in
  (length (my_requests selected_user db) <= 5)%nat /\
  Permutation mine
    (List.filter (fun r => String.eqb (PR.requested_by r) selected_user)
       (all_rows db)) /\
  mine = (my_requests selected_user db ++ skipn 5 mine)%list /\
  newest_first (my_requests selected_user db) /\
  (forall shown, In shown (my_requests selected_user db) ->
     PR.requested_by shown = selected_user /\ In shown (all_rows db)) /\
  (forall shown left_out,
     In shown (my_requests selected_user db) ->
     In left_out (skipn 5 mine) ->
     PR.created_at left_out <= PR.created_at shown).
Proof.
  intros mine.
  assert (Hperm : Permutation (get_payment_requests None db) (all_rows db)).
  { unfold get_payment_requests; simpl.
    rewrite order_by_created_at_desc_Permutation. apply table_scan_Permutation. }
  assert (Hsorted : newest_first mine).
  { apply StronglySorted_filter.
    unfold get_payment_requests; simpl.
    apply order_by_created_at_desc_newest_first. }
  assert (Hsplit : mine = (my_requests selected_user db ++ skipn 5 mine)%list)
    by (symmetry; apply firstn_skipn).
  split; [apply firstn_le_length|].
  split; [now apply filter_Permutation|].
  split; [exact Hsplit|].
  split.
  { unfold newest_first in *. rewrite Hsplit in Hsorted.
    clear Hsplit. revert Hsorted.
    generalize (my_requests selected_user db) (skipn 5 mine).
    intros l1 l2. induction l1 as [|x l1 IH]; simpl; intros H; [constructor|].
    apply StronglySorted_inv in H as [Hs Hall]. constructor; [now apply IH|].
    apply List.Forall_forall. intros y Hy.
    apply (proj1 (List.Forall_forall _ _) Hall). apply in_or_app. now left. }
  split.
  { intros shown Hin.
    assert (Hm : In shown mine)
      by (rewrite Hsplit; apply in_or_app; now left).
    apply List.filter_In in Hm as [Hm Hu]. split.
    - now apply String.eqb_eq.
    - exact (Permutation_in _ Hperm Hm). }
  intros shown left_out Hs Hl.
  unfold newest_first in Hsorted. rewrite Hsplit in Hsorted.
  exact (StronglySorted_app_inv _ _ _ Hsorted shown left_out Hs Hl).
Qed.

Lemma urgency_of_rank_mono a b :
  a <= b -> urgency_rank (urgency_of a) <= urgency_rank (urgency_of b).
Proof.
  intros H. unfold urgency_of.
  destruct (Z.leb_spec a 2), (Z.leb_spec a 4), (Z.leb_spec b 2),
    (Z.leb_spec b 4); simpl; lia.
Qed.

Lemma upcoming_requests today all_requests :
  map request (upcoming today (scheduled_payments all_requests)) =
  List.filter
    (fun r => pendiente_or_en_proceso r && due_in_days today 7 r) all_requests.
Proof.
  unfold upcoming, scheduled_payments, due_in_days, Date.leb.
  induction all_requests as [|r l IH]; [reflexivity|].
  cbn [List.filter]. rewrite <- is_active_spec.
  destruct (truthy (PR.agreed_payment_date r)) eqn:T.
  - destruct (is_active r); cbn [andb flat_map]; [|exact IH].
    rewrite map_app, IH.
    destruct (parse_agreed r) as [d|]; [|reflexivity].
    destruct ((Date.toordinal today <=? Date.toordinal d)
              && (Date.toordinal d <=? Date.toordinal today + 7)); reflexivity.
  - cbn [andb]. rewrite (truthy_false_parse_agreed r T), andb_false_r. exact IH.
Qed.

(** X6. The list of the next seven days holds exactly the requests
    with status pendiente or en_proceso whose agreed date parses to a
    date from today to seven days ahead, each once, in ascending order
    of date, so the number of days left never decreases and the urgency
    never rises down the list; the urgency is high for 0 to 2 days,
    medium for 3 and 4, low for 5 to 7. *)
Theorem upcoming_warnings_are_ordered today all_requests :
  let warnings := upcoming_warnings today all_requests in
  Permutation (map (fun w => request (w_payment w)) warnings)
    (List.filter
       (fun r => pendiente_or_en_proceso r && due_in_days today 7 r)
       all_requests) /\
  StronglySorted (fun a b => w_days_until a <= w_days_until b) warnings /\
  StronglySorted
    (fun a b => urgency_rank (w_urgency a) <= urgency_rank (w_urgency b))
    warnings /\
  Forall
    (fun w =>
       parse_agreed (request (w_payment w)) = Some (payment_date (w_payment w)) /\
       w_days_until w
         = Date.toordinal (payment_date (w_payment w)) - Date.toordinal today /\
       0 <= w_days_until w <= 7 /\
       w_urgency w =
         (if w_days_until w <=? 2 then high
          else if w_days_until w <=? 4 then medium else low))
    warnings.
Proof.
  intros warnings. unfold warnings, upcoming_warnings.
  set (by_date := fun p : dated => Date.toordinal (payment_date p)).
  set (up := upcoming today (scheduled_payments all_requests)).
  pose proof (sorted_by_sorted by_date up) as Hs.
  split; [|split; [|split]].
  - rewrite map_map. cbn [w_payment]. rewrite <- upcoming_requests. fold up.
    apply Permutation_map, sorted_by_Permutation.
  - induction Hs as [|p l _ IH Hall]; simpl; constructor; [exact IH|].
    apply Forall_map. eapply Forall_impl; [exact Hall|].
    unfold key_le, by_date, days_until; simpl. intros; lia.
  - induction Hs as [|p l _ IH Hall]; simpl; constructor; [exact IH|].
    apply Forall_map. eapply Forall_impl; [exact Hall|].
    unfold key_le, by_date, days_until; simpl. intros q Hq.
    apply urgency_of_rank_mono. lia.
  - apply Forall_map. apply List.Forall_forall. intros p Hp. simpl.
    apply (proj1 (sorted_by_In by_date p up)) in Hp.
    apply upcoming_In in Hp as (Hin & Hparse & Hrange).
    unfold days_until. repeat split; try assumption; lia.
Qed.


(** ** Buckets *)

Lemma range_S n : range (S n) = (range n ++ [Z.of_nat n])%list.
Proof. unfold range. now rewrite seq_S, map_app. Qed.

Lemma week_payments_In today i wd p :
  In p (week_payments today i wd) <->
  In p wd /\
  7 * i <= Date.toordinal (payment_date p) - Date.toordinal today <= 7 * i + 6.
Proof.
  unfold week_payments, week_end, week_start.
  rewrite List.filter_In, andb_true_iff, !Z.leb_le. intuition lia.
Qed.

Lemma length_filter_split {A : Type} (f g h : A -> bool) (l : list A) :
  (forall x, h x = true <-> f x = true \/ g x = true) ->
  (forall x, f x = true -> g x = true -> False) ->
  (length (List.filter f l) + length (List.filter g l))%nat
  = length (List.filter h l).
Proof.
  intros Hh Hfg. induction l as [|x l IH]; [reflexivity|]. cbn [List.filter].
  specialize (Hh x). specialize (Hfg x).
  destruct (f x), (g x), (h x); cbn [length]; try lia;
    exfalso; intuition discriminate.
Qed.

(** The weeks [0 .. n-1] together hold as many payments as are due from
    today to [7 n - 1] days ahead. *)
Lemma week_counts today wd n :
  list_sum (map (fun i => length (week_payments today i wd)) (range n))
  = length (List.filter (due_within today (7 * Z.of_nat n - 1)) wd).
Proof.
  induction n as [|n IH].
  - cbn [range List.seq map list_sum].
    induction wd as [|p l IHl]; [reflexivity|]. cbn [List.filter].
    replace (due_within today (7 * Z.of_nat 0 - 1) p) with false; [exact IHl|].
    symmetry. unfold due_within. apply andb_false_iff. rewrite !Z.leb_gt. lia.
  - rewrite range_S, map_app, list_sum_app, IH. cbn [map].
    simpl (list_sum [_]). rewrite Nat.add_0_r. apply length_filter_split.
    + intros p. unfold due_within, week_end, week_start.
      rewrite !andb_true_iff, !Z.leb_le. lia.
    + intros p. unfold due_within, week_end, week_start.
      rewrite !andb_true_iff, !Z.leb_le. lia.
Qed.

(** X8. The eight weekly buckets split the 56 days that start today: a
    dated payment is in bucket [i] exactly when it is due [7 i] to
    [7 i + 6] days from today, so it is in at most one bucket; it is in
    one of the eight buckets exactly when it is due from today to 55
    days ahead, so payments dated before today or 56 or more days ahead
    are in no bucket; and the counts of the eight buckets add up to the
    number of dated payments due in those 56 days. *)
Theorem weekly_buckets_split_the_horizon today wd :
  (forall i p,
     In p (week_payments today i wd) <->
     In p wd /\
     7 * i <= Date.toordinal (payment_date p) - Date.toordinal today
           <= 7 * i + 6) /\
  (forall i j p,
     In p (week_payments today i wd) -> In p (week_payments today j wd) ->
     i = j) /\
  (forall p,
     In p wd ->
     (exists i, In i (range 8) /\ In p (week_payments today i wd)) <->
     0 <= Date.toordinal (payment_date p) - Date.toordinal today <= 55) /\
  map b_index (weeks_data today wd) = [0; 1; 2; 3; 4; 5; 6; 7] /\
  Forall (fun b => b_pagos b = length (week_payments today (b_index b) wd))
    (weeks_data today wd) /\
  list_sum (map b_pagos (weeks_data today wd))
    = length (List.filter (due_within today 55) wd).
Proof.
  split; [intros i p; apply week_payments_In|].
  split.
  { intros i j p Hi Hj. apply week_payments_In in Hi as [_ Hi].
    apply week_payments_In in Hj as [_ Hj]. lia. }
  split.
  { intros p Hp. split.
    - intros (i & Hi & Hin). apply range_In in Hi.
      apply week_payments_In in Hin as [_ Hin]. lia.
    - intros Hd.
      exists ((Date.toordinal (payment_date p) - Date.toordinal today) / 7).
      split.
      + apply range_In. split; [apply Z.div_pos; lia|].
        apply Z.div_lt_upper_bound; lia.
      + apply week_payments_In. split; [exact Hp|].
        pose proof (Z.div_mod
                      (Date.toordinal (payment_date p) - Date.toordinal today) 7
                      ltac:(lia)).
        pose proof (Z.mod_pos_bound
                      (Date.toordinal (payment_date p) - Date.toordinal today) 7
                      ltac:(lia)).
        lia. }
  split; [unfold weeks_data; rewrite map_map; reflexivity|].
  split.
  { unfold weeks_data. apply Forall_map. apply List.Forall_forall.
    intros i _. reflexivity. }
  unfold weeks_data. rewrite map_map. cbn [b_pagos].
  exact (week_counts today wd 8).
Qed.

(** ** The calendar against the projection *)

Lemma month_payments_of_with_date m y all_requests :
  month_payments m y (scheduled_payments all_requests) =
  List.filter (fun p => in_month m y (payment_date p))
    (with_date (active_payments all_requests)).
Proof.
  unfold month_payments, scheduled_payments, with_date, active_payments, in_month.
  induction all_requests as [|r l IH]; [reflexivity|].
  cbn [List.filter].
  destruct (is_active r), (truthy (PR.agreed_payment_date r)) eqn:Ht;
    cbn [andb flat_map]; rewrite ?Ht; try exact IH.
  destruct (parse_agreed r) as [d|]; [|exact IH].
  cbn [app List.filter payment_date]. rewrite IH.
  destruct ((Date.month d =? m) && (Date.year d =? y)); reflexivity.
Qed.

(** X9. The calendar and the cashflow projection agree on a month: for
    each of the six months of the projection, the payments that the
    calendar lists when that month and year are selected are the
    payments of the month's bucket, in the same order, so the month's
    total and number of payments in the calendar are the ones of the
    bucket. *)
Theorem calendar_month_is_the_cashflow_bucket today i all_requests :
  Date.valid today = true -> 0 <= i < 6 ->
  let shown := Date.add_months today i in
  let mp := month_payments (Date.month shown) (Date.year shown)
              (scheduled_payments all_requests) in
  let wd := with_date (active_payments all_requests) in
  mp = month_bucket_payments today i wd /\
  In {| b_index := i; b_monto := total_month mp; b_pagos := length mp |}
    (months_data today wd).
Proof.
  intros Hv Hi shown mp wd.
  assert (E : mp = month_bucket_payments today i wd).
  { unfold mp, wd. rewrite month_payments_of_with_date.
    rewrite (month_bucket_is_calendar_month today i _ Hv ltac:(lia)
               (with_date_parsed _)).
    apply List.filter_ext. intros p. unfold in_month, same_month, shown.
    apply andb_comm. }
  split; [exact E|].
  unfold months_data. apply in_map_iff. exists i. split.
  - rewrite E. reflexivity.
  - apply range_In. simpl. lia.
Qed.

Lemma calendar_month_sample :
  let mp := month_payments 4 2024 (scheduled_payments sample_requests) in
  let wd := with_date (active_payments sample_requests) in
  Date.valid (Date.mk 2024 3 15) = true /\ 0 <= 1 < 6 /\
  map request mp = [req_april] /\
  mp = month_bucket_payments (Date.mk 2024 3 15) 1 wd /\
  In {| b_index := 1; b_monto := total_month mp; b_pagos := length mp |}
    (months_data (Date.mk 2024 3 15) wd).
Proof.
  assert (Hv : Date.valid (Date.mk 2024 3 15) = true) by reflexivity.
  assert (Hi : 0 <= 1 < 6) by lia.
  split; [exact Hv|]. split; [exact Hi|]. split; [reflexivity|].
  exact (calendar_month_is_the_cashflow_bucket (Date.mk 2024 3 15) 1
           sample_requests Hv Hi).
Defined.

(** ** The agreed date, from the form to the views *)

Lemma digit_digit_char n : digit (digit_char n) = Some (n mod 10).
Proof.
  unfold digit_char. pose proof (Z.mod_pos_bound n 10 ltac:(lia)) as Hk.
  set (k := n mod 10) in *.
  assert (H : k = 0 \/ k = 1 \/ k = 2 \/ k = 3 \/ k = 4 \/ k = 5 \/ k = 6
              \/ k = 7 \/ k = 8 \/ k = 9) by lia.
  destruct H as [?|[?|[?|[?|[?|[?|[?|[?|[?|?]]]]]]]]]; subst k;
    match goal with H : _ = _ |- _ => rewrite H end; reflexivity.
Qed.

Lemma parse_year_isoformat y rest :
  0 <= y <= 9999 ->
  parse_year (String (digit_char (y / 1000)) (String (digit_char (y / 100))
               (String (digit_char (y / 10)) (String (digit_char y) rest))))
  = Some (y, rest).
Proof.
  intros Hy. unfold parse_year. rewrite !digit_digit_char.
  do 2 f_equal. Z.to_euclidean_division_equations. lia.
Qed.

Lemma parse_month_isoformat m rest :
  1 <= m <= 12 ->
  parse_month_dash (String (digit_char (m / 10)) (String (digit_char m)
                      (String "-" rest)))
  = Some (m, rest).
Proof. intros Hm. each_month m; reflexivity. Qed.

Lemma parse_day_isoformat d :
  1 <= d <= 31 ->
  parse_day_end (String (digit_char (d / 10)) (String (digit_char d) EmptyString))
  = Some d.
Proof.
  intros Hd.
  assert (H : exists n, (n < 31)%nat /\ d = 1 + Z.of_nat n)
    by (exists (Z.to_nat (d - 1)); lia).
  destruct H as (n & Hn & ->).
  do 31 (destruct n as [|n]; [reflexivity|]). lia.
Qed.

(** A date written by [isoformat] is read back by [strptime]. *)
Lemma strptime_ymd_isoformat d :
  Date.valid d = true -> strptime_ymd (isoformat d) = Some d.
Proof.
  intros Hv. pose proof (valid_bounds d Hv) as (Hy & Hm & Hd).
  pose proof (days_in_month_bounds (Date.year d) (Date.month d)).
  unfold strptime_ymd, isoformat. cbv zeta.
  rewrite parse_year_isoformat by lia.
  rewrite parse_month_isoformat by lia.
  rewrite parse_day_isoformat by lia.
  destruct d as [y m dd]. simpl in *. cbv zeta. rewrite Hv. reflexivity.
Qed.

Lemma isoformat_truthy d : truthy (Some (isoformat d)) = true.
Proof. reflexivity. Qed.

(** X10. The date picked in the request form comes back in the views:
    when a form with an agreed date is accepted, the stored row holds
    the date in ISO format, the calendar of the month and year of that
    date lists the row on that very date, and the cashflow view counts
    it among the payments with a date and not among those without. *)
Theorem submitted_date_is_read_back f now db request_id db' d :
  submit_payment_request_form f now db = inr (Ok (request_id, db')) ->
  f_agreed_date f = Some d -> Date.valid d = true ->
  exists row,
    payment_requests db' !! request_id = Some row /\
    PR.agreed_payment_date row = Some (isoformat d) /\
    month_payments (Date.month d) (Date.year d) (scheduled_payments [row])
      = [{| request := row; payment_date := d |}] /\
    with_date (active_payments [row]) = [{| request := row; payment_date := d |}] /\
    without_date (active_payments [row]) = [].
Proof.
  intros Hs Hf Hv.
  apply submit_payment_request_form_created in Hs
    as (_ & _ & _ & _ & row & -> & _ & Hst & _ & _ & _ & _ & Hd & _ & _).
  rewrite Hf in Hd. simpl in Hd.
  assert (Hp : parse_agreed row = Some d)
    by (unfold parse_agreed; rewrite Hd; now apply strptime_ymd_isoformat).
  assert (Ha : is_active row = true) by (unfold is_active; now rewrite Hst).
  exists row. split; [simpl; apply lookup_insert_eq|]. split; [exact Hd|].
  unfold month_payments, scheduled_payments, with_date, without_date,
    active_payments.
  cbn [List.filter flat_map]. rewrite Ha, Hd, isoformat_truthy.
  cbn [andb flat_map app]. rewrite Hd, isoformat_truthy, Hp, !Z.eqb_refl.
  repeat split; reflexivity.
Qed.

Lemma submitted_date_sample :
  let db' := db_of (create_payment_request (request_data_of_form sample_form)
                      100 empty_database) empty_database in
  submit_payment_request_form sample_form 100 empty_database
    = inr (Ok (1, db')) /\
  f_agreed_date sample_form = Some (Date.mk 2024 3 13) /\
  Date.valid (Date.mk 2024 3 13) = true /\
  exists row,
    payment_requests db' !! 1 = Some row /\
    PR.agreed_payment_date row = Some (isoformat (Date.mk 2024 3 13)) /\
    month_payments 3 2024 (scheduled_payments [row])
      = [{| request := row; payment_date := Date.mk 2024 3 13 |}] /\
    with_date (active_payments [row])
      = [{| request := row; payment_date := Date.mk 2024 3 13 |}] /\
    without_date (active_payments [row]) = [].
Proof.
  intros db'.
  assert (H1 : submit_payment_request_form sample_form 100 empty_database
               = inr (Ok (1, db'))) by (vm_compute; reflexivity).
  assert (H2 : f_agreed_date sample_form = Some (Date.mk 2024 3 13))
    by reflexivity.
  assert (H3 : Date.valid (Date.mk 2024 3 13) = true) by reflexivity.
  split; [exact H1|]. split; [exact H2|]. split; [exact H3|].
  exact (submitted_date_is_read_back sample_form 100 empty_database 1 db'
           (Date.mk 2024 3 13) H1 H2 H3).
Defined.

(** ** The statistics *)

Lemma fold_left_insert_lookup {V : Type} (g : string -> V) (ks : list string)
    (acc : gmap string V) (s : string) :
  fold_left (fun (m : gmap string V) k => <[k := g k]> m) ks acc !! s =
  if bool_decide (s ∈ ks) then Some (g s) else acc !! s.
Proof.
  revert acc. induction ks as [|k ks IH]; intros acc; [reflexivity|].
  cbn [fold_left]. rewrite IH.
  destruct (bool_decide_reflect (s ∈ ks)) as [Hin|Hout].
  - rewrite bool_decide_eq_true_2 by (now right). reflexivity.
  - destruct (decide (k = s)) as [->|Hne].
    + rewrite bool_decide_eq_true_2 by left. apply lookup_insert_eq.
    + rewrite bool_decide_eq_false_2
        by (intros H; apply elem_of_cons in H as [?|?]; congruence).
      now apply lookup_insert_ne.
Qed.

Lemma fold_left_map_compose {A B C : Type} (f : C -> B -> C) (h : A -> B)
    (l : list A) (c : C) :
  fold_left f (map h l) c = fold_left (fun c x => f c (h x)) l c.
Proof. revert c. induction l as [|x l IH]; intros c; [reflexivity|apply IH]. Qed.

Lemma with_status_absent s rows :
  ~ In s (map PR.status rows) -> with_status s rows = [].
Proof.
  intros Hout. unfold with_status. induction rows as [|r l IH]; [reflexivity|].
  simpl in *. destruct (String.eqb_spec (PR.status r) s) as [E|_].
  - exfalso. apply Hout. now left.
  - apply IH. intros H. apply Hout. now right.
Qed.

Lemma get_stats_lookup db s :
  get_stats db !! s =
  if bool_decide (s ∈ map PR.status (table_scan db))
  then Some (Stat.mk (length (with_status s (table_scan db)))
               (num_or_0 (sum (amounts (with_status s (table_scan db))))))
  else None.
Proof.
  unfold get_stats, status_groups. rewrite fold_left_map_compose. cbn [fst snd].
  rewrite (fold_left_insert_lookup
             (fun s => Stat.mk (length (with_status s (table_scan db)))
                         (num_or_0 (sum (amounts (with_status s (table_scan db))))))).
  rewrite lookup_empty.
  rewrite (bool_decide_ext _ _ (elem_of_remove_dups _ s)). reflexivity.
Qed.

Lemma with_status_present s rows :
  In s (map PR.status rows) -> with_status s rows <> [].
Proof.
  intros Hin. apply in_map_iff in Hin as (r & Hr & Hin).
  assert (H : In r (with_status s rows)).
  { unfold with_status. apply List.filter_In. split; [exact Hin|].
    now apply String.eqb_eq. }
  intros E. rewrite E in H. destruct H.
Qed.

Lemma sidebar_count_spec db s :
  Stat.count (sidebar_metric (get_stats db) s)
    = length (with_status s (table_scan db)).
Proof.
  unfold sidebar_metric. rewrite get_stats_lookup.
  destruct (bool_decide_reflect (s ∈ map PR.status (table_scan db))) as [_|Hout].
  - reflexivity.
  - now rewrite with_status_absent by (now rewrite <- list_elem_of_In).
Qed.

Lemma with_status_Permutation s l l' :
  Permutation l l' -> Permutation (with_status s l) (with_status s l').
Proof. apply filter_Permutation. Qed.

Lemma filter_orb_Permutation {A : Type} (p q : A -> bool) (l : list A) :
  (forall r, p r = true -> q r = false) ->
  Permutation (List.filter (fun r => p r || q r) l)
    (List.filter p l ++ List.filter q l).
Proof.
  intros Hpq. induction l as [|r l IH]; [reflexivity|].
  cbn [List.filter]. destruct (p r) eqn:Hp.
  - rewrite (Hpq r Hp). cbn [orb app]. now apply perm_skip.
  - destruct (q r); cbn [orb]; [|exact IH].
    rewrite IH. apply Permutation_middle.
Qed.

(** X11. The sidebar agrees with the lists: for a status that is not
    the empty text, the count that the sidebar shows for it is the
    number of requests that [get_payment_requests] returns for that
    status; [get_stats] has an entry for the status exactly when that
    list is not empty, and a status that no row has shows 0 and 0. *)
Theorem sidebar_counts_the_listed_requests db status :
  status <> "" ->
  let listed := get_payment_requests (Some status) db in
  let shown := sidebar_metric (get_stats db) status in
  Stat.count shown = length listed /\
  (get_stats db !! status = None <-> listed = []) /\
  (listed = [] -> shown = Stat.mk 0 0%Q).
Proof.
  intros Hs listed shown.
  assert (E : listed = order_by_created_at_desc (with_status status (table_scan db))).
  { unfold listed, get_payment_requests, truthy.
    destruct (String.eqb_spec status "") as [|_]; [contradiction|]. reflexivity. }
  pose proof (order_by_created_at_desc_Permutation
                (with_status status (table_scan db))) as Hp.
  rewrite <- E in Hp.
  assert (Hnil : listed = [] <-> with_status status (table_scan db) = []).
  { split; intros H; rewrite H in Hp;
      [|symmetry in Hp]; now apply Permutation_nil in Hp. }
  assert (Hkey : get_stats db !! status = None <-> listed = []).
  { rewrite Hnil, get_stats_lookup.
    destruct (bool_decide_reflect (status ∈ map PR.status (table_scan db)))
      as [Hin|Hout].
    - apply list_elem_of_In, with_status_present in Hin.
      split; [discriminate|contradiction].
    - split; [|reflexivity]. intros _. apply with_status_absent.
      now rewrite <- list_elem_of_In. }
  split; [|split; [exact Hkey|]].
  - unfold shown. rewrite sidebar_count_spec. symmetry.
    now apply Permutation_length.
  - intros H. apply Hkey in H. unfold shown, sidebar_metric. now rewrite H.
Qed.

Lemma sidebar_counts_sample :
  "pendiente" <> "" /\
  length (get_payment_requests (Some "pendiente") sample_db) = 1%nat /\
  Stat.count (sidebar_metric (get_stats sample_db) "pendiente")
    = length (get_payment_requests (Some "pendiente") sample_db).
Proof.
  assert (H : "pendiente" <> "") by discriminate.
  split; [exact H|]. split; [vm_compute; reflexivity|].
  exact (proj1 (sidebar_counts_the_listed_requests sample_db "pendiente" H)).
Defined.

Lemma sidebar_count_of_list db s :
  Stat.count (sidebar_metric (get_stats db) s)
  = length (with_status s (get_payment_requests None db)).
Proof.
  rewrite sidebar_count_spec. symmetry. apply Permutation_length.
  apply with_status_Permutation, order_by_created_at_desc_Permutation.
Qed.

(** X12. The counts of the pages are computed from one table and
    agree: the numbers of pending, approved and in-process requests
    above the admin list are the counts of [get_stats]; the cashflow
    view's number of active payments is the pending plus the in-process
    count; and the requests whose amounts the admin view adds up as
    pending are those the cashflow view adds up together with the
    approved ones, which only the admin view counts as pending. *)
Theorem summaries_agree db :
  let all_reqs := get_payment_requests None db in
  let active := active_payments all_reqs in
  let shown := sidebar_metric (get_stats db) in
  let admin_pending :=
    List.filter
      (fun r => bool_decide (PR.status r = "pendiente"
                             \/ PR.status r = "aprobado_cfo"
                             \/ PR.status r = "en_proceso"))
      all_reqs in
  pending_cfo all_reqs = Stat.count (shown "pendiente") /\
  approved_cfo all_reqs = Stat.count (shown "aprobado_cfo") /\
  in_process_count all_reqs = Stat.count (shown "en_proceso") /\
  length active = (pending_cfo all_reqs + in_process_count all_reqs)%nat /\
  admin_total_pending all_reqs = sum (amounts admin_pending) /\
  total_pending active = sum (amounts active) /\
  Permutation admin_pending (active ++ with_status "aprobado_cfo" all_reqs).
Proof.
  intros all_reqs active shown admin_pending.
  assert (Hact : Permutation active
                   (with_status "pendiente" all_reqs
                    ++ with_status "en_proceso" all_reqs)).
  { apply (filter_orb_Permutation
             (fun r => String.eqb (PR.status r) "pendiente")
             (fun r => String.eqb (PR.status r) "en_proceso")).
    intros r H. cbv beta in *. apply String.eqb_eq in H. now rewrite H. }
  assert (Hadm : Permutation
                   (List.filter
                      (fun r => is_active r
                                || String.eqb (PR.status r) "aprobado_cfo")
                      all_reqs)
                   (active ++ with_status "aprobado_cfo" all_reqs)).
  { apply (filter_orb_Permutation is_active
             (fun r => String.eqb (PR.status r) "aprobado_cfo")).
    intros r H. unfold is_active in H. cbv beta.
    apply orb_true_iff in H as [H|H]; apply String.eqb_eq in H; now rewrite H. }
  assert (Eadm : admin_pending =
                 List.filter
                   (fun r => String.eqb (PR.status r) "pendiente"
                             || String.eqb (PR.status r) "aprobado_cfo"
                             || String.eqb (PR.status r) "en_proceso")
                   all_reqs).
  { apply List.filter_ext. intros r.
    destruct (String.eqb_spec (PR.status r) "pendiente"),
      (String.eqb_spec (PR.status r) "aprobado_cfo"),
      (String.eqb_spec (PR.status r) "en_proceso"); cbn [orb];
      try (apply bool_decide_eq_true_2; tauto).
    apply bool_decide_eq_false_2. tauto. }
  unfold pending_cfo, approved_cfo, in_process_count, shown.
  rewrite !sidebar_count_of_list. fold all_reqs.
  split; [reflexivity|]. split; [reflexivity|]. split; [reflexivity|].
  split; [rewrite (Permutation_length Hact); now rewrite length_app|].
  split; [now rewrite Eadm|]. split; [reflexivity|].
  rewrite Eadm, <- Hadm.
  apply Permutation_refl'. apply List.filter_ext. intros r. unfold is_active.
  destruct (String.eqb (PR.status r) "pendiente"),
    (String.eqb (PR.status r) "aprobado_cfo"),
    (String.eqb (PR.status r) "en_proceso"); reflexivity.
Qed.

(** ** The tables of the settings page *)

Section Tables.
Context {A : Type}.

Lemma last_rowid_ge (m : gmap Z A) k x : m !! k = Some x -> k <= last_rowid m.
Proof.
  intros H. apply elem_of_map_to_list in H. unfold last_rowid.
  induction (map_to_list m) as [|kv l IH]; simpl.
  - inversion H.
  - apply elem_of_cons in H as [<-|H]; simpl; [lia|].
    specialize (IH H). lia.
Qed.

Lemma new_rowid_fresh (t : table A) : t_rows t !! new_rowid t = None.
Proof.
  destruct (t_rows t !! new_rowid t) as [x|] eqn:E; [|reflexivity].
  apply last_rowid_ge in E. unfold new_rowid in E. lia.
Qed.

Lemma select_all_Permutation (t : table A) :
  Permutation (select_all t) (map snd (map_to_list (t_rows t))).
Proof. unfold select_all. apply Permutation_map, sorted_by_Permutation. Qed.

Lemma select_all_In (t : table A) x :
  In x (select_all t) <-> exists k, t_rows t !! k = Some x.
Proof.
  split.
  - intros H. apply (Permutation_in _ (select_all_Permutation t)) in H.
    apply in_map_iff in H as ([k y] & <- & H).
    exists k. apply elem_of_map_to_list. now apply list_elem_of_In.
  - intros (k & H). apply (Permutation_in _ (Permutation_sym (select_all_Permutation t))).
    apply in_map_iff. exists (k, x). split; [reflexivity|].
    apply list_elem_of_In. now apply elem_of_map_to_list.
Qed.

Lemma select_all_insert_row (make : Z -> A) (t : table A) :
  Permutation (select_all (insert_row make t))
    (make (new_rowid t) :: select_all t).
Proof.
  rewrite !select_all_Permutation. unfold insert_row. cbn [t_rows].
  rewrite (map_to_list_insert _ _ _ (new_rowid_fresh t)). reflexivity.
Qed.

Lemma select_all_delete (t : table A) k x :
  t_rows t !! k = Some x ->
  Permutation
    (x :: select_all {| t_rows := delete k (t_rows t); t_sequence := t_sequence t |})
    (select_all t).
Proof.
  intros H. rewrite !select_all_Permutation. cbn [t_rows].
  rewrite <- (map_to_list_delete _ _ _ H). reflexivity.
Qed.

Lemma select_all_nil (t : table A) : select_all t = [] -> t_rows t = ∅.
Proof.
  intros H. apply map_empty. intros k.
  destruct (t_rows t !! k) as [x|] eqn:E; [|reflexivity].
  assert (Hin : In x (select_all t)) by (apply select_all_In; now exists k).
  rewrite H in Hin. destruct Hin.
Qed.

End Tables.

(** *** Users *)

Lemma existsb_name_false name (l : list User.t) :
  existsb (fun u => String.eqb (User.name u) name) l = false <->
  ~ In name (map User.name l).
Proof.
  induction l as [|u l IH]; simpl; [tauto|].
  destruct (String.eqb_spec (User.name u) name) as [E|E]; simpl.
  - split; [discriminate|]. intros H. exfalso. apply H. now left.
  - rewrite IH. tauto.
Qed.

Lemma insert_user_spec name team users :
  insert_user name team users =
  if existsb (fun u => String.eqb (User.name u) name) (select_all users)
  then None
  else Some (insert_row (fun id => User.mk id name team) users).
Proof. reflexivity. Qed.

Lemma names_insert_row name team users :
  Permutation
    (map User.name (select_all (insert_row (fun id => User.mk id name team) users)))
    (name :: map User.name (select_all users)).
Proof.
  rewrite (Permutation_map User.name (select_all_insert_row _ users)).
  reflexivity.
Qed.

Lemma insert_user_ok name team users users' :
  users_ok users -> name <> "" -> In team teams ->
  insert_user name team users = Some users' -> users_ok users'.
Proof.
  intros [Hrows Hnames] Hname Hteam. rewrite insert_user_spec.
  destruct (existsb _ _) eqn:E; [discriminate|]. intros [= <-].
  apply existsb_name_false in E. split.
  - intros k u. unfold insert_row. cbn [t_rows].
    destruct (decide (new_rowid users = k)) as [<-|Hne].
    + rewrite lookup_insert_eq. intros [= <-]. now repeat split.
    + rewrite lookup_insert_ne by assumption. apply Hrows.
  - rewrite (names_insert_row name team users). apply NoDup_cons.
    split; [now rewrite list_elem_of_In | exact Hnames].
Qed.

Lemma delete_user_ok user_id users :
  users_ok users -> users_ok (delete_user user_id users).2.
Proof.
  intros [Hrows Hnames]. unfold delete_user.
  destruct (t_rows users !! user_id) as [u|] eqn:E; [|now split].
  cbn [snd]. split.
  - intros k v. cbn [t_rows]. intros H.
    apply lookup_delete_Some in H as [_ H]. now apply Hrows.
  - pose proof (Permutation_map User.name (select_all_delete users user_id u E)) as Hp.
    rewrite <- Hp in Hnames. cbn [map] in Hnames.
    now apply NoDup_cons in Hnames as [_ Hnames].
Qed.

Lemma add_user_ok name team users :
  users_ok users -> name <> "" -> In team teams ->
  users_ok (add_user name team users).2.
Proof.
  intros Hok Hname Hteam. unfold add_user.
  destruct (insert_user name team users) as [users'|] eqn:E; [|exact Hok].
  exact (insert_user_ok name team users users' Hok Hname Hteam E).
Qed.

(** On a table without rows the four inserts of [init_database] go
    through, whatever its counter is. *)
Lemma init_users_empty users :
  select_all users = [] ->
  exists users',
    init_users users = Some users' /\
    Permutation (map (fun u => (User.name u, User.team u)) (select_all users'))
      default_users /\
    (users_ok users -> users_ok users').
Proof.
  intros Hnil. unfold init_users. rewrite Hnil. cbn [length Nat.eqb].
  unfold default_users. cbn [fold_left fst snd].
  set (mk1 := fun id => User.mk id "Usuario Producción 1" "produccion").
  set (mk2 := fun id => User.mk id "Usuario Producción 2" "produccion").
  set (mk3 := fun id => User.mk id "Usuario Admin 1" "admin").
  set (mk4 := fun id => User.mk id "Usuario Admin 2" "admin").
  set (t1 := insert_row mk1 users).
  set (t2 := insert_row mk2 t1).
  set (t3 := insert_row mk3 t2).
  set (t4 := insert_row mk4 t3).
  pose proof (select_all_insert_row mk1 users) as P1. rewrite Hnil in P1. fold t1 in P1.
  pose proof (select_all_insert_row mk2 t1) as P2. fold t2 in P2. rewrite P1 in P2.
  pose proof (select_all_insert_row mk3 t2) as P3. fold t3 in P3. rewrite P2 in P3.
  pose proof (select_all_insert_row mk4 t3) as P4. fold t4 in P4. rewrite P3 in P4.
  assert (E1 : insert_user "Usuario Producción 1" "produccion" users = Some t1).
  { rewrite insert_user_spec, Hnil. reflexivity. }
  assert (E2 : insert_user "Usuario Producción 2" "produccion" t1 = Some t2).
  { rewrite insert_user_spec.
    rewrite (proj2 (existsb_name_false _ _)); [reflexivity|].
    rewrite (Permutation_map User.name P1). simpl. intros [?|[]]; discriminate. }
  assert (E3 : insert_user "Usuario Admin 1" "admin" t2 = Some t3).
  { rewrite insert_user_spec.
    rewrite (proj2 (existsb_name_false _ _)); [reflexivity|].
    rewrite (Permutation_map User.name P2). simpl.
    intros [?|[?|[]]]; discriminate. }
  assert (E4 : insert_user "Usuario Admin 2" "admin" t3 = Some t4).
  { rewrite insert_user_spec.
    rewrite (proj2 (existsb_name_false _ _)); [reflexivity|].
    rewrite (Permutation_map User.name P3). simpl.
    intros [?|[?|[?|[]]]]; discriminate. }
  exists t4. rewrite E1, E2, E3, E4. split; [reflexivity|]. split.
  - rewrite (Permutation_map _ P4). simpl.
    change [("Usuario Admin 2", "admin"); ("Usuario Admin 1", "admin");
            ("Usuario Producción 2", "produccion");
            ("Usuario Producción 1", "produccion")]
      with (rev [("Usuario Producción 1", "produccion");
                 ("Usuario Producción 2", "produccion");
                 ("Usuario Admin 1", "admin"); ("Usuario Admin 2", "admin")]).
    symmetry. apply Permutation_rev.
  - intros Hok.
    assert (Hp : In "produccion" teams) by (now left).
    assert (Ha : In "admin" teams) by (right; now left).
    apply (insert_user_ok _ _ t3 t4) with (4 := E4); [|discriminate|exact Ha].
    apply (insert_user_ok _ _ t2 t3) with (4 := E3); [|discriminate|exact Ha].
    apply (insert_user_ok _ _ t1 t2) with (4 := E2); [|discriminate|exact Hp].
    apply (insert_user_ok _ _ users t1) with (4 := E1);
      [exact Hok|discriminate|exact Hp].
Qed.

Lemma init_users_nonempty users :
  select_all users <> [] -> init_users users = Some users.
Proof.
  intros H. unfold init_users.
  destruct (select_all users) as [|u l]; [contradiction|reflexivity].
Qed.

Lemma init_users_ok users users' :
  users_ok users -> init_users users = Some users' -> users_ok users'.
Proof.
  intros Hok H. destruct (select_all users) as [|u l] eqn:E.
  - destruct (init_users_empty users E) as (t & Ht & _ & Hk).
    rewrite Ht in H. injection H as <-. now apply Hk.
  - rewrite init_users_nonempty in H by (rewrite E; discriminate).
    now injection H as <-.
Qed.

Lemma users_click_ok a users users' :
  users_ok users -> users_click a users = Some users' -> users_ok users'.
Proof.
  intros Hok. destruct a as [name team|user_id]; cbn [users_click].
  - destruct (existsb (String.eqb team) teams) eqn:Et; [|discriminate].
    apply existsb_exists in Et as (t & Hin & Et). apply String.eqb_eq in Et. subst t.
    destruct (String.eqb_spec name "") as [->|Hname]; intros [= <-];
      [exact Hok|now apply add_user_ok].
  - destruct (existsb _ _); [|discriminate]. intros [= <-]. now apply delete_user_ok.
Qed.

Lemma empty_table_ok : users_ok empty_table.
Proof.
  split.
  - intros k u H. cbn in H. rewrite lookup_empty in H. discriminate.
  - unfold select_all. cbn [t_rows empty_table]. rewrite map_to_list_empty.
    constructor.
Qed.

Lemma users_reachable_ok users : users_reachable users -> users_ok users.
Proof.
  induction 1 as [|a users users' _ IH Hrun]; [apply empty_table_ok|].
  unfold users_run in Hrun.
  destruct (init_users users) as [t|] eqn:E; [|discriminate].
  eapply users_click_ok; [|exact Hrun]. now apply (init_users_ok users).
Qed.

Lemma split_by_team (l : list User.t) :
  Forall (fun u => In (User.team u) teams) l ->
  Permutation l
    (List.filter (fun u => String.eqb (User.team u) "produccion") l ++
     List.filter (fun u => String.eqb (User.team u) "admin") l).
Proof.
  induction 1 as [|u l Hu _ IH]; [reflexivity|].
  cbn [List.filter].
  destruct Hu as [E|[E|[]]]; rewrite <- E; cbn [String.eqb Ascii.eqb Bool.eqb].
  - cbn. now apply perm_skip.
  - cbn. rewrite <- Permutation_middle. now apply perm_skip.
Qed.

(** X13. Whatever is done on the users tab, starting from the empty
    table that [init_database] creates, no two users share a name, every
    user has a name, and every user appears in exactly one of the two
    lists of the page, production or admin, where its delete button is. *)
Theorem settings_page_lists_every_user users :
  users_reachable users ->
  NoDup (map User.name (get_users None users)) /\
  Forall (fun u => User.name u <> "") (get_users None users) /\
  Permutation (get_users None users) (listed_users users).
Proof.
  intros H. apply users_reachable_ok in H as [Hrows Hnames].
  change (get_users None users) with (select_all users).
  assert (Hall : forall u, In u (select_all users) ->
                   User.name u <> "" /\ In (User.team u) teams).
  { intros u Hu. apply select_all_In in Hu as (k & Hk).
    now destruct (Hrows k u Hk) as (_ & ? & ?). }
  split; [exact Hnames|]. split.
  - apply List.Forall_forall. intros u Hu. now apply Hall.
  - apply split_by_team. apply List.Forall_forall. intros u Hu. now apply Hall.
Qed.

Lemma settings_page_users_sample :
  let users :=
    default empty_table
      (users_run (AgregarUsuario "Ana" "produccion") empty_table) in
  users_reachable users /\
  map User.name (get_users (Some "produccion") users)
    = ["Usuario Producción 1"; "Usuario Producción 2"; "Ana"] /\
  NoDup (map User.name (get_users None users)) /\
  Forall (fun u => User.name u <> "") (get_users None users) /\
  Permutation (get_users None users) (listed_users users).
Proof.
  intros users.
  assert (E : users_run (AgregarUsuario "Ana" "produccion") empty_table
              = Some users) by (vm_compute; reflexivity).
  assert (R : users_reachable users)
    by exact (users_after_run _ _ _ users_created E).
  split; [exact R|]. split; [vm_compute; reflexivity|].
  exact (settings_page_lists_every_user users R).
Defined.

(** X14. The users step of [init_database] never raises and is
    idempotent: a table with rows is left as it is; a table without
    rows, whatever its counter, receives the four default users, so
    after the call there is always a user, and a second call changes
    nothing. Deleting the last user therefore brings the defaults back
    at the next run. *)
Theorem init_database_users_is_idempotent users :
  exists users',
    init_users users = Some users' /\
    get_users None users' <> [] /\
    init_users users' = Some users' /\
    (get_users None users <> [] -> users' = users) /\
    (get_users None users = [] ->
     Permutation
       (map (fun u => (User.name u, User.team u)) (get_users None users'))
       default_users).
Proof.
  change (get_users None users) with (select_all users).
  destruct (select_all users) as [|u l] eqn:E.
  - destruct (init_users_empty users E) as (t & Ht & Hp & _).
    assert (Hne : select_all t <> []).
    { intros Hnil. change (get_users None t) with (select_all t) in Hp.
      rewrite Hnil in Hp. apply Permutation_nil in Hp. discriminate. }
    exists t. split; [exact Ht|]. split; [exact Hne|].
    split; [now apply init_users_nonempty|]. split; [congruence|].
    intros _. exact Hp.
  - assert (Hne : select_all users <> []) by (rewrite E; discriminate).
    exists users. split; [now apply init_users_nonempty|].
    split; [exact Hne|]. split; [now apply init_users_nonempty|].
    split; [reflexivity|]. intros H. discriminate.
Qed.

(** *** Providers *)

Lemma add_provider_clash name pid payment_condition providers p :
  In p (select_all providers) -> Provider.provider_id p = Some pid ->
  add_provider name (Some pid) payment_condition providers = (false, providers).
Proof.
  intros Hin Hp. unfold add_provider.
  replace (existsb _ (select_all providers)) with true; [reflexivity|].
  symmetry. apply existsb_exists. exists p. split; [exact Hin|].
  now apply bool_decide_eq_true_2.
Qed.

Lemma add_provider_holds_id name pid payment_condition providers :
  exists p,
    In p (select_all (add_provider name (Some pid) payment_condition providers).2)
    /\ Provider.provider_id p = Some pid.
Proof.
  unfold add_provider.
  destruct (existsb _ (select_all providers)) eqn:E; cbn [snd].
  - apply existsb_exists in E as (p & Hin & Hp).
    apply bool_decide_eq_true_1 in Hp. now exists p.
  - eexists. split.
    + apply (Permutation_in _ (Permutation_sym (select_all_insert_row _ providers))).
      left. reflexivity.
    + reflexivity.
Qed.

Lemma insert_by_name_Permutation x l : Permutation (insert_by_name x l) (x :: l).
Proof.
  induction l as [|y l IH]; simpl; [reflexivity|].
  destruct (String.leb (Provider.name x) (Provider.name y)); [reflexivity|].
  rewrite IH. apply perm_swap.
Qed.

Lemma get_providers_Permutation providers :
  Permutation (get_providers providers) (select_all providers).
Proof.
  unfold get_providers. induction (select_all providers) as [|x l IH];
    [reflexivity|].
  simpl. rewrite insert_by_name_Permutation. now apply perm_skip.
Qed.

(** X15. A provider id left empty is stored as the empty text by the
    request form and as NULL by the settings page. The id is unique, so
    once a provider typed into the request form with some id text (the
    empty one included) has been registered, a further new provider
    typed with the same id text is not registered at all; the settings
    form, on the contrary, accepts any named provider without an id,
    and the list of providers grows by that provider. *)
Theorem request_form_registers_an_id_text_once
    providers name1 name2 pid payment_condition :
  name1 <> "" -> name2 <> "" ->
  let registered :=
    register_new_provider no_provider_selected name1 pid providers in
  register_new_provider no_provider_selected name2 pid registered = registered /\
  exists providers',
    add_provider_form name2 "" payment_condition registered
      = Some (true, providers') /\
    Permutation (get_providers providers')
      (Provider.mk (new_rowid registered) None name2 (nonempty payment_condition)
         :: get_providers registered).
Proof.
  intros H1 H2 registered. split.
  - unfold registered, register_new_provider.
    rewrite String.eqb_refl.
    destruct (String.eqb_spec name1 "") as [|_]; [contradiction|].
    destruct (String.eqb_spec name2 "") as [|_]; [contradiction|].
    cbn [negb andb].
    destruct (add_provider_holds_id name1 pid None providers) as (p & Hin & Hp).
    now rewrite (add_provider_clash name2 pid None _ p Hin Hp).
  - unfold add_provider_form.
    destruct (String.eqb_spec name2 "") as [|_]; [contradiction|].
    eexists. split; [reflexivity|].
    rewrite !get_providers_Permutation.
    exact (select_all_insert_row
             (fun id => Provider.mk id None name2 (nonempty payment_condition))
             registered).
Qed.

Lemma request_form_registers_sample :
  let registered :=
    register_new_provider no_provider_selected "ACME" "" empty_table in
  "ACME" <> "" /\ "Beta" <> "" /\
  map Provider.name (get_providers registered) = ["ACME"] /\
  register_new_provider no_provider_selected "Beta" "" registered = registered /\
  exists providers',
    add_provider_form "Beta" "" "30 días" registered = Some (true, providers') /\
    Permutation (get_providers providers')
      (Provider.mk (new_rowid registered) None "Beta" (nonempty "30 días")
         :: get_providers registered).
Proof.
  intros registered.
  assert (H1 : "ACME" <> "") by discriminate.
  assert (H2 : "Beta" <> "") by discriminate.
  split; [exact H1|]. split; [exact H2|]. split; [vm_compute; reflexivity|].
  exact (request_form_registers_an_id_text_once empty_table "ACME" "Beta" ""
           "30 días" H1 H2).
Defined.

(** ** The list of the admin view *)

Section SortedWith.
Context {A : Type} (leb : A -> A -> bool).
Hypothesis leb_total : forall x y, leb x y = false -> leb y x = true.
Hypothesis leb_trans : forall x y z, leb x y = true -> leb y z = true -> leb x z = true.

Lemma insert_with_Permutation x l : Permutation (insert_with leb x l) (x :: l).
Proof.
  induction l as [|y l IH]; simpl; [reflexivity|].
  destruct (leb x y); [reflexivity|]. rewrite IH. apply perm_swap.
Qed.

Lemma sorted_with_Permutation l : Permutation (sorted_with leb l) l.
Proof.
  induction l as [|x l IH]; simpl; [reflexivity|].
  rewrite insert_with_Permutation. now apply perm_skip.
Qed.

Lemma insert_with_sorted x l :
  StronglySorted (fun a b => leb a b = true) l ->
  StronglySorted (fun a b => leb a b = true) (insert_with leb x l).
Proof.
  induction 1 as [|y l Hs IH Hall]; simpl.
  - constructor; constructor.
  - destruct (leb x y) eqn:E.
    + constructor; [now constructor|]. constructor; [exact E|].
      eapply Forall_impl; [exact Hall|]. intros z Hz. now apply (leb_trans x y z).
    + constructor; [exact IH|].
      apply List.Forall_forall. intros z Hz.
      apply (Permutation_in _ (insert_with_Permutation x l)) in Hz.
      destruct Hz as [<-|Hz]; [now apply leb_total|].
      now apply (proj1 (List.Forall_forall _ _) Hall).
Qed.

Lemma sorted_with_sorted l :
  StronglySorted (fun a b => leb a b = true) (sorted_with leb l).
Proof.
  induction l as [|x l IH]; simpl; [constructor|]. now apply insert_with_sorted.
Qed.

End SortedWith.

Lemma amount_leb_le a b : amount_leb a b = true <-> (PR.amount a <= PR.amount b)%Q.
Proof. apply Qle_bool_iff. Qed.

Lemma amount_leb_total a b : amount_leb a b = false -> amount_leb b a = true.
Proof.
  intros H. apply amount_leb_le. apply Qlt_le_weak, Qnot_le_lt.
  intros Hle. apply amount_leb_le in Hle. congruence.
Qed.

Lemma amount_leb_trans a b c :
  amount_leb a b = true -> amount_leb b c = true -> amount_leb a c = true.
Proof. rewrite !amount_leb_le. apply Qle_trans. Qed.

Lemma StronglySorted_impl {A : Type} (R S : A -> A -> Prop) (l : list A) :
  (forall a b, R a b -> S a b) -> StronglySorted R l -> StronglySorted S l.
Proof.
  intros HRS. induction 1 as [|a l Hs IH Hall]; constructor; [exact IH|].
  eapply Forall_impl; [exact Hall|]. intros b. apply HRS.
Qed.

Lemma get_payment_requests_passes f db :
  get_payment_requests (status_map f) db =
  order_by_created_at_desc (List.filter (passes f) (table_scan db)).
Proof.
  unfold get_payment_requests, passes.
  destruct f; cbn [status_map truthy String.eqb negb default]; try reflexivity.
  f_equal. induction (table_scan db) as [|r l IH]; [reflexivity|].
  simpl. now rewrite <- IH.
Qed.

(** X16. The list of the admin view holds exactly the rows that pass
    the status filter, each once, whatever order is selected, so the
    "Total" metric does not depend on the order; and the list is in the
    selected order: newest first, oldest first, largest amount first or
    smallest amount first. *)
Theorem admin_list_is_filtered_and_ordered f sort_by db :
  let requests := admin_requests f sort_by db in
  Permutation requests (List.filter (passes f) (table_scan db)) /\
  length requests = length (get_payment_requests (status_map f) db) /\
  StronglySorted (in_order sort_by) requests.
Proof.
  intros requests.
  assert (Hp : Permutation requests (get_payment_requests (status_map f) db)).
  { unfold requests, admin_requests. destruct sort_by.
    - reflexivity.
    - apply sorted_by_Permutation.
    - apply sorted_with_Permutation.
    - apply sorted_with_Permutation. }
  split; [|split].
  - rewrite Hp, get_payment_requests_passes.
    apply order_by_created_at_desc_Permutation.
  - now apply Permutation_length.
  - unfold requests, admin_requests. destruct sort_by; cbn [in_order].
    + rewrite get_payment_requests_passes.
      apply order_by_created_at_desc_newest_first.
    + apply (sorted_by_sorted PR.created_at).
    + eapply StronglySorted_impl;
        [|apply (sorted_with_sorted (fun a b => amount_leb b a))].
      * intros a b H. now apply amount_leb_le.
      * intros x y H. now apply amount_leb_total.
      * intros x y z H1 H2. now apply (amount_leb_trans z y x).
    + eapply StronglySorted_impl;
        [|apply (sorted_with_sorted amount_leb)].
      * intros a b H. now apply amount_leb_le.
      * apply amount_leb_total.
      * apply amount_leb_trans.
Qed.
